(** * Weather advisory engine of [weather_bot.py]

    A shallow embedding of the three pure functions of the back end,
    [get_health_recommendations], [get_comprehensive_recommendations]
    and [format_recommendations], followed by the properties the
    specification states about them.

    Conventions of the embedding:
    - a Python [str] is the [string] of its UTF-8 bytes, so the emoji of
      the advisory texts are kept byte for byte;
    - a Python number ([int] or [float]) is a rational, or one of the
      three special floats; only comparisons are ever applied to it;
    - a [dict] read by fixed keys is a record of optional fields: [None]
      is a missing key, which [d[k]] turns into [KeyError] and
      [d.get(k, default)] into the default;
    - [list.append] and [list.extend] on the accumulators are written as
      explicit state passing. *)

From Stdlib Require Import Bool Arith ZArith QArith Ascii String List Lia.
Import ListNotations.

#[local] Close Scope Q_scope.
#[local] Open Scope string_scope.
#[local] Open Scope list_scope.

Set Implicit Arguments.

(** ** Python values *)

Module Py.

(** *** Numbers *)

Inductive number : Type :=
| Fin (q : Q)
| PInf
| NInf
| NaN.

Definition int (z : Z) : number := Fin (inject_Z z).

Definition Qlt_bool (x y : Q) : bool := negb (Qle_bool y x).

(** [a < b]; every comparison with [nan] is false. *)
Definition lt (a b : number) : bool :=
  match a, b with
  | NaN, _ | _, NaN => false
  | Fin p, Fin q => Qlt_bool p q
  | _, NInf => false
  | NInf, _ => true
  | PInf, _ => false
  | Fin _, PInf => true
  end.

(** [a <= b]. *)
Definition le (a b : number) : bool :=
  match a, b with
  | NaN, _ | _, NaN => false
  | Fin p, Fin q => Qle_bool p q
  | NInf, _ => true
  | _, PInf => true
  | _, NInf => false
  | PInf, Fin _ => false
  end.

(** [a > b] is [b < a]. *)
Definition gt (a b : number) : bool := lt b a.

(** Two numbers denoting the same value ([25 == 25.0]). *)
Definition same_value (a b : number) : Prop :=
  match a, b with
  | Fin p, Fin q => (p == q)%Q
  | PInf, PInf | NInf, NInf | NaN, NaN => True
  | _, _ => False
  end.

(** *** Strings *)

Definition lower_ascii (c : ascii) : ascii :=
  let n := nat_of_ascii c in
  if (65 <=? n)%nat && (n <=? 90)%nat then ascii_of_nat (n + 32) else c.

(** [s.lower()], on the letters A-Z.  No character outside ASCII
    lowers to a string in which one of the ASCII keywords of the rules
    appears where it did not before, so the keyword tests below are
    those of the source. *)
Fixpoint lower (s : string) : string :=
  match s with
  | EmptyString => EmptyString
  | String c s' => String (lower_ascii c) (lower s')
  end.

(** [needle in hay]. *)
Fixpoint contains (needle hay : string) : bool :=
  String.prefix needle hay
  || match hay with
     | EmptyString => false
     | String _ hay' => contains needle hay'
     end.

(** [sep.join(parts)]. *)
Fixpoint join (sep : string) (parts : list string) : string :=
  match parts with
  | [] => EmptyString
  | [p] => p
  | p :: rest => p ++ sep ++ join sep rest
  end.

(** Truth value of a list: non-empty. *)
Definition truthy {A} (l : list A) : bool :=
  match l with [] => false | _ :: _ => true end.

(** *** Exceptions *)

Inductive exn : Type :=
| KeyError (key : string).

Definition result (A : Type) : Type := (exn + A)%type.

Definition ret {A} (a : A) : result A := inr a.

Definition bind {A B} (m : result A) (k : A -> result B) : result B :=
  match m with
  | inl e => inl e
  | inr a => k a
  end.

(** [d[key]] *)
Definition getitem {A} (key : string) (field : option A) : result A :=
  match field with
  | Some v => inr v
  | None => inl (KeyError key)
  end.

(** [d.get(key, default)] *)
Definition get {A} (field : option A) (default : A) : A :=
  match field with
  | Some v => v
  | None => default
  end.

End Py.

Notation "x <- m ;; k" := (Py.bind m (fun x => k))
  (at level 61, m at next level, right associativity).

(** ** Data model *)

(** The [weather_data] dictionary. *)
Record reading : Type := Reading {
  temp : option Py.number;
  humidity : option Py.number;
  description : option string;
  air_quality : option Py.number;
  wind_speed : option Py.number
}.

(** A row of the [profiles] table.  The three label columns hold lists
    of strings. *)
Record profile : Type := Profile {
  user_id : option string;
  health_conditions : option (list string);
  weather_sensitivities : option (list string);
  allergies : option (list string)
}.

(** [if user_profile:] is false for [None] and for a dictionary without
    keys. *)
Definition profile_truthy (user_profile : option profile) : bool :=
  match user_profile with
  | None => false
  | Some p =>
      match user_id p, health_conditions p, weather_sensitivities p, allergies p with
      | None, None, None, None => false
      | _, _, _, _ => true
      end
  end.

(** The dictionary of the four categories. *)
Record advisory : Type := Advisory {
  health_advice : list string;
  activities : list string;
  food_suggestions : list string;
  general_advice : list string
}.

Definition empty_advisory : advisory :=
  Advisory [] [] [] [].

Definition extend_health (l : list string) (r : advisory) : advisory :=
  Advisory (health_advice r ++ l) (activities r) (food_suggestions r) (general_advice r).

Definition extend_activities (l : list string) (r : advisory) : advisory :=
  Advisory (health_advice r) (activities r ++ l) (food_suggestions r) (general_advice r).

Definition extend_food (l : list string) (r : advisory) : advisory :=
  Advisory (health_advice r) (activities r) (food_suggestions r ++ l) (general_advice r).

Definition extend_general (l : list string) (r : advisory) : advisory :=
  Advisory (health_advice r) (activities r) (food_suggestions r) (general_advice r ++ l).

Definition set_activities (l : list string) (r : advisory) : advisory :=
  Advisory (health_advice r) l (food_suggestions r) (general_advice r).

(** ** Advisory texts

    The string literals of the source, named after the rule that
    appends them. *)

Module Text.

Definition newline : string := String "010" EmptyString.

Definition asthma_humidity : string :=
  "⚠️ High humidity may affect your asthma. Consider staying indoors.".
Definition asthma_damp : string :=
  "🌧️ Damp conditions may trigger asthma. Keep inhaler handy.".
Definition heart_hot : string :=
  "❤️ High temperature may strain your heart. Stay in air-conditioned spaces.".
Definition heart_cold : string :=
  "❄️ Cold weather can affect blood pressure. Stay warm and avoid overexertion.".
Definition diabetes_heat : string :=
  "📊 Heat can affect blood sugar levels. Check levels more frequently.".
Definition diabetes_humidity : string :=
  "💧 High humidity can affect insulin absorption. Monitor closely.".

Definition sensitive_cold : string :=
  "🌡️ Temperature is low and you're sensitive to cold. Bundle up well.".
Definition sensitive_heat : string :=
  "🌞 Temperature is high and you're heat-sensitive. Stay hydrated and in shade.".
Definition sensitive_humidity : string :=
  "💧 High humidity detected. Use dehumidifier indoors if possible.".
Definition sensitive_air : string :=
  "😷 Poor air quality. Consider wearing a mask outdoors.".

Definition allergy_pollen : string :=
  "🌼 High pollen risk today. Take antihistamines if needed.".
Definition allergy_dust : string :=
  "💨 Windy conditions may stir up dust. Wear a mask if needed.".

Definition avoid_strenuous : string := "❌ Avoid strenuous outdoor activities".
Definition sightseeing : string := "✅ Sightseeing".
Definition beach : string := "✅ Beach activities (with proper protection)".

Definition hot_activities : list string :=
  [ avoid_strenuous;
    "✅ Indoor swimming";
    "✅ Indoor gym workouts";
    "✅ Mall walking";
    "✅ Indoor sports" ].
Definition hot_food : list string :=
  [ "🥤 Drink plenty of water (at least 3-4 liters)";
    "🥗 Light meals with high water content";
    "🍎 Fresh fruits and vegetables";
    "🧂 Electrolyte-rich drinks";
    "❌ Avoid heavy, spicy foods" ].
Definition hot_general : list string :=
  [ "⏰ Plan activities early morning or late evening";
    "👕 Wear light, breathable clothing";
    "🧴 Use sunscreen (SPF 50+)";
    "🕶 Wear sunglasses and a hat" ].

Definition warm_activities : list string :=
  [ "✅ Swimming";
    "✅ Early morning/late evening walks";
    beach;
    "⚠️ Moderate outdoor activities" ].
Definition warm_food : list string :=
  [ "🥤 Stay well hydrated";
    "🥗 Fresh salads";
    "🍊 Seasonal fruits";
    "🥤 Sports drinks for outdoor activities" ].

Definition mild_activities : list string :=
  [ "✅ Most outdoor activities are comfortable";
    "✅ Walking, jogging, cycling";
    "✅ Outdoor sports";
    sightseeing ].
Definition mild_food : list string :=
  [ "🥤 Regular water intake";
    "🍽️ Regular balanced meals";
    "🥪 Pack snacks for outdoor activities" ].

Definition rain_general : list string :=
  [ "☔ Carry an umbrella";
    "🧥 Wear waterproof clothing";
    "👟 Wear appropriate footwear" ].
Definition clear_general : list string :=
  [ "🕶 Wear sunglasses";
    "🧴 Apply sunscreen";
    "👒 Wear a hat for sun protection" ].

Definition mask : string := "😷 Consider wearing a mask due to poor air quality".

Definition health_heading : string := "🏥 Health Recommendations:".
Definition activity_heading : string := "🏃 Activity Recommendations:".
Definition food_heading : string := "🍽️ Food & Hydration Advice:".
Definition general_heading : string := "💡 General Advice:".

End Text.

(** ** [get_health_recommendations] *)

Section HealthRules.

Variables (temp humidity : Py.number) (conditions : string).
Variable weather_data : reading.

(** Body of [for condition in user_profile.get('health_conditions', [])]. *)
Definition health_condition_rule (recommendations : list string) (condition : string)
  : list string :=
  let condition := Py.lower condition in
  if (condition =? "asthma")%string then
    let recommendations :=
      if Py.gt humidity (Py.int 70)
      then recommendations ++ [Text.asthma_humidity] else recommendations in
    if Py.contains "rain" conditions || Py.contains "mist" conditions
    then recommendations ++ [Text.asthma_damp] else recommendations
  else if (condition =? "heart condition")%string then
    if Py.gt temp (Py.int 30) then recommendations ++ [Text.heart_hot]
    else if Py.lt temp (Py.int 5) then recommendations ++ [Text.heart_cold]
    else recommendations
  else if (condition =? "diabetes")%string then
    let recommendations :=
      if Py.gt temp (Py.int 30)
      then recommendations ++ [Text.diabetes_heat] else recommendations in
    if Py.gt humidity (Py.int 80)
    then recommendations ++ [Text.diabetes_humidity] else recommendations
  else recommendations.

(** Body of [for sensitivity in user_profile.get('weather_sensitivities', [])]. *)
Definition sensitivity_rule (recommendations : list string) (sensitivity : string)
  : list string :=
  let sensitivity := Py.lower sensitivity in
  if (sensitivity =? "cold")%string && Py.lt temp (Py.int 10)
  then recommendations ++ [Text.sensitive_cold]
  else if (sensitivity =? "heat")%string && Py.gt temp (Py.int 28)
  then recommendations ++ [Text.sensitive_heat]
  else if (sensitivity =? "humidity")%string && Py.gt humidity (Py.int 70)
  then recommendations ++ [Text.sensitive_humidity]
  else if (sensitivity =? "air quality")%string
          && Py.gt (Py.get (air_quality weather_data) (Py.int 0)) (Py.int 100)
  then recommendations ++ [Text.sensitive_air]
  else recommendations.

(** Body of [for allergy in user_profile.get('allergies', [])]. *)
Definition allergy_rule (recommendations : list string) (allergy : string)
  : list string :=
  let allergy := Py.lower allergy in
  if (allergy =? "pollen")%string then
    if Py.contains "clear" conditions || Py.contains "sunny" conditions
    then recommendations ++ [Text.allergy_pollen] else recommendations
  else if (allergy =? "dust")%string then
    if Py.contains "windy" conditions
    then recommendations ++ [Text.allergy_dust] else recommendations
  else recommendations.

(** The three loops, run when [user_profile] is truthy. *)
Definition profile_rules (recommendations : list string) (user_profile : profile)
  : list string :=
  let recommendations :=
    fold_left health_condition_rule
      (Py.get (health_conditions user_profile) []) recommendations in
  let recommendations :=
    fold_left sensitivity_rule
      (Py.get (weather_sensitivities user_profile) []) recommendations in
  fold_left allergy_rule
    (Py.get (allergies user_profile) []) recommendations.

End HealthRules.

Definition get_health_recommendations
  (weather_data : reading) (user_profile : option profile) : Py.result (list string) :=
  let recommendations := [] in
  temp <- Py.getitem "temp" (temp weather_data) ;;
  humidity <- Py.getitem "humidity" (humidity weather_data) ;;
  description <- Py.getitem "description" (description weather_data) ;;
  let conditions := Py.lower description in
  Py.ret
    match user_profile with
    | Some p =>
        if profile_truthy user_profile
        then profile_rules temp humidity conditions weather_data recommendations p
        else recommendations
    | None => recommendations
    end.

(** ** [get_comprehensive_recommendations] *)

(** [if temp > 35: ... elif 25 <= temp <= 35: ... else: ...] *)
Definition temperature_rules (temp : Py.number) (recommendations : advisory)
  : advisory :=
  if Py.gt temp (Py.int 35) then
    let recommendations := extend_activities Text.hot_activities recommendations in
    let recommendations := extend_food Text.hot_food recommendations in
    extend_general Text.hot_general recommendations
  else if Py.le (Py.int 25) temp && Py.le temp (Py.int 35) then
    let recommendations := extend_activities Text.warm_activities recommendations in
    extend_food Text.warm_food recommendations
  else
    let recommendations := extend_activities Text.mild_activities recommendations in
    extend_food Text.mild_food recommendations.

(** [if user_profile: health_recs = ...; recommendations["health_advice"].extend(health_recs)] *)
Definition health_rules (weather_data : reading) (user_profile : option profile)
  (recommendations : advisory) : Py.result advisory :=
  if profile_truthy user_profile then
    health_recs <- get_health_recommendations weather_data user_profile ;;
    Py.ret (extend_health health_recs recommendations)
  else Py.ret recommendations.

(** [if 'rain' in conditions: ... elif 'clear' in conditions: ...] *)
Definition condition_rules (conditions : string) (recommendations : advisory)
  : advisory :=
  if Py.contains "rain" conditions then
    extend_general Text.rain_general recommendations
  else if Py.contains "clear" conditions then
    extend_general Text.clear_general recommendations
  else recommendations.

(** [any(outdoor in act.lower() for outdoor in ['outdoor', 'outside', 'beach'])] *)
Definition mentions_outdoor (act : string) : bool :=
  existsb (fun outdoor => Py.contains outdoor (Py.lower act))
    ["outdoor"; "outside"; "beach"].

(** [if weather_data.get("air_quality", 0) > 100: ...] *)
Definition air_quality_rules (weather_data : reading) (recommendations : advisory)
  : advisory :=
  if Py.gt (Py.get (air_quality weather_data) (Py.int 0)) (Py.int 100) then
    let recommendations := extend_health [Text.mask] recommendations in
    set_activities
      (filter (fun act => negb (mentions_outdoor act)) (activities recommendations))
      recommendations
  else recommendations.

Definition get_comprehensive_recommendations
  (weather_data : reading) (user_profile : option profile) : Py.result advisory :=
  temp <- Py.getitem "temp" (temp weather_data) ;;
  humidity <- Py.getitem "humidity" (humidity weather_data) ;;
  description <- Py.getitem "description" (description weather_data) ;;
  let conditions := Py.lower description in
  let recommendations := empty_advisory in
  let recommendations := temperature_rules temp recommendations in
  recommendations <- health_rules weather_data user_profile recommendations ;;
  let recommendations := condition_rules conditions recommendations in
  let recommendations := air_quality_rules weather_data recommendations in
  Py.ret recommendations.

(** ** [format_recommendations] *)

Definition format_recommendations (recommendations : advisory) : string :=
  let sections : list string := [] in
  let sections :=
    if Py.truthy (health_advice recommendations) then
      ((sections ++ [Text.health_heading]) ++ health_advice recommendations)
        ++ [EmptyString]
    else sections in
  let sections :=
    if Py.truthy (activities recommendations) then
      ((sections ++ [Text.activity_heading]) ++ activities recommendations)
        ++ [EmptyString]
    else sections in
  let sections :=
    if Py.truthy (food_suggestions recommendations) then
      ((sections ++ [Text.food_heading]) ++ food_suggestions recommendations)
        ++ [EmptyString]
    else sections in
  let sections :=
    if Py.truthy (general_advice recommendations) then
      (sections ++ [Text.general_heading]) ++ general_advice recommendations
    else sections in
  Py.join Text.newline sections.

(** ** Sample inputs *)

Module Sample.

Definition q (z : Z) : option Py.number := Some (Py.int z).

(** The three worked examples of the specification. *)
Definition hot_clear : reading := Reading (q 38) (q 75) (Some "clear sky") (q 40) None.
Definition mild_rain : reading := Reading (q 20) (q 50) (Some "light rain") (q 0) None.
Definition cold_clear : reading := Reading (q 2) (q 40) (Some "clear") (q 0) None.

(** What [get_weather_data] builds: no ["air_quality"] key. *)
Definition from_provider : reading :=
  Reading (Some (Py.Fin (2835 # 100))) (q 60) (Some "Scattered Clouds") None
          (Some (Py.Fin (41 # 10))).

Definition hot_smog : reading := Reading (q 40) (q 50) (Some "haze") (q 150) None.
Definition warm_smog : reading := Reading (q 30) (q 50) (Some "haze") (q 150) None.

(** One observation written with integers, with floats, and with
    another wind speed. *)
Definition warm_int : reading := Reading (q 25) (q 60) (Some "Sunny") None (q 3).
Definition warm_float : reading :=
  Reading (Some (Py.Fin (250 # 10))) (Some (Py.Fin (120 # 2))) (Some "Sunny") None
          (Some (Py.Fin (30 # 10))).
Definition warm_gale : reading := Reading (q 25) (q 60) (Some "Sunny") None (q 30).

Definition asthma_profile : profile := Profile (Some "u1") (Some ["asthma"]) None None.
Definition heart_profile : profile :=
  Profile (Some "u2") (Some ["heart condition"]) None None.
Definition heart_twice : profile :=
  Profile (Some "u3") (Some ["heart condition"; "Heart Condition"]) None None.
Definition full_profile : profile :=
  Profile (Some "u4") (Some ["Asthma"; "diabetes"; "gout"])
          (Some ["heat"; "air quality"]) (Some ["pollen"; "dust"]).

End Sample.

(** ** Vocabulary of the specification *)

(** The reading carries the three keys every rule reads. *)
Definition provides (weather_data : reading) (t h : Py.number) (d : string) : Prop :=
  temp weather_data = Some t
  /\ humidity weather_data = Some h
  /\ description weather_data = Some d.

(** [airQualityIndex], 0 when the key is absent. *)
Definition air_quality_index (weather_data : reading) : Py.number :=
  Py.get (air_quality weather_data) (Py.int 0).

(** The global air-quality override fires. *)
Definition override (weather_data : reading) : bool :=
  Py.gt (air_quality_index weather_data) (Py.int 100).

(** The three temperature bands, in the specification's words: hot above
    35, warm from 25 to 35 inclusive, mild otherwise. *)
Inductive band : Type := Hot | Warm | Mild.

Definition band_of (t : Py.number) : band :=
  if Py.gt t (Py.int 35) then Hot
  else if Py.le (Py.int 25) t && Py.le t (Py.int 35) then Warm
  else Mild.

Definition band_activities (b : band) : list string :=
  match b with
  | Hot => Text.hot_activities
  | Warm => Text.warm_activities
  | Mild => Text.mild_activities
  end.

Definition band_food (b : band) : list string :=
  match b with
  | Hot => Text.hot_food
  | Warm => Text.warm_food
  | Mild => Text.mild_food
  end.

Definition band_general (b : band) : list string :=
  match b with
  | Hot => Text.hot_general
  | Warm | Mild => []
  end.

(** General advice of the condition keywords: rain first, else clear. *)
Definition condition_general (conditions : string) : list string :=
  if Py.contains "rain" conditions then Text.rain_general
  else if Py.contains "clear" conditions then Text.clear_general
  else [].

(** Health advice of the profile: nothing for an absent or empty one. *)
Definition personal_advice (t h : Py.number) (conditions : string)
  (weather_data : reading) (user_profile : option profile) : list string :=
  match user_profile with
  | Some p =>
      if profile_truthy user_profile
      then profile_rules t h conditions weather_data [] p
      else []
  | None => []
  end.

(** The entries that survive the override filter. *)
Definition keep_indoor (acts : list string) : list string :=
  filter (fun act => negb (mentions_outdoor act)) acts.

(** The three categories the profile does not reach. *)
Definition outside_health (r : advisory) : list string * list string * list string :=
  (activities r, food_suggestions r, general_advice r).

Definition map_result {A B} (f : A -> B) (m : Py.result A) : Py.result B :=
  match m with
  | inl e => inl e
  | inr a => inr (f a)
  end.

(** Number of occurrences of an advisory in a category. *)
Definition count (s : string) (l : list string) : nat :=
  List.length (filter (String.eqb s) l).

(** A label the heart-condition rule answers to. *)
Definition is_heart_condition (condition : string) : bool :=
  (Py.lower condition =? "heart condition")%string.

(** What one heart-condition entry appends: the hot warning above 30
    degrees, otherwise the cold warning below 5, otherwise nothing. *)
Definition heart_warning (t : Py.number) : list string :=
  if Py.gt t (Py.int 30) then [Text.heart_hot]
  else if Py.lt t (Py.int 5) then [Text.heart_cold]
  else [].

(** How many entries of the profile's [health_conditions] the
    heart-condition rule answers to. *)
Definition heart_entries (user_profile : option profile) : nat :=
  match user_profile with
  | Some p => List.length (filter is_heart_condition (Py.get (health_conditions p) []))
  | None => 0
  end.

(** One category as the formatter lays it out: nothing when empty,
    otherwise the heading, the entries and, if asked for, an empty
    separator line. *)
Definition render (heading : string) (separator : bool) (entries : list string)
  : list string :=
  match entries with
  | [] => []
  | _ :: _ => heading :: entries ++ (if separator then [EmptyString] else [])
  end.

(** The lines of the formatted text, category after category. *)
Definition layout (r : advisory) : list string :=
  render Text.health_heading true (health_advice r)
  ++ render Text.activity_heading true (activities r)
  ++ render Text.food_heading true (food_suggestions r)
  ++ render Text.general_heading false (general_advice r).

(** Two optional numbers that are the same Python value. *)
Definition same_field (a b : option Py.number) : Prop :=
  match a, b with
  | Some x, Some y => Py.same_value x y
  | None, None => True
  | _, _ => False
  end.

(** Two readings that agree on everything but the wind speed. *)
Definition same_but_wind (w1 w2 : reading) : Prop :=
  same_field (temp w1) (temp w2)
  /\ same_field (humidity w1) (humidity w2)
  /\ description w1 = description w2
  /\ same_field (air_quality w1) (air_quality w2).

(** Two readings that are equal as Python dictionaries. *)
Definition same_reading (w1 w2 : reading) : Prop :=
  same_but_wind w1 w2 /\ same_field (wind_speed w1) (wind_speed w2).

(** ** The collaborators of the engine

    [get_weather_data], [get_user_profile] and
    [get_weather_with_health_context] talk to the network and to the
    database.  What the outside world answers is an input of the model;
    what the functions do with the answer is embedded as written. *)

(** The part of the provider's JSON document that [get_weather_data]
    reads: [data["main"]], [data["weather"]] and [data["wind"]]. *)
Record owm_main : Type := OwmMain {
  main_temp : option Py.number;
  main_humidity : option Py.number
}.

Record owm_weather : Type := OwmWeather {
  weather_description : option string
}.

Record owm_wind : Type := OwmWind {
  speed : option Py.number
}.

Record owm_data : Type := OwmData {
  data_main : option owm_main;
  data_weather : option (list owm_weather);
  data_wind : option owm_wind
}.

(** How the request of [get_weather_data] ends. *)
Inductive response : Type :=
| RequestFailed                (* [requests.get] raises *)
| StatusError                  (* [raise_for_status] raises [HTTPError] *)
| NotJson                      (* [response.json()] raises *)
| Json (data : owm_data).

(** The dictionary [get_weather_data] returns: the one with the key
    ["error"], or the weather dictionary. *)
Inductive weather_dict : Type :=
| ErrorDict (error : string)
| WeatherDict (weather : reading).

Definition fetch_failed : string := "Failed to fetch weather data.".

(** The dictionary literal of the [try] block; [None] when one of its
    subscripts raises ([KeyError], or [IndexError] on an empty
    ["weather"] list). *)
Definition weather_of_json (data : owm_data) : option reading :=
  match data_main data with
  | None => None
  | Some main =>
  match main_temp main with
  | None => None
  | Some temp =>
  match data_weather data with
  | None => None
  | Some weather =>
  match nth_error weather 0 with
  | None => None
  | Some first =>
  match weather_description first with
  | None => None
  | Some description =>
  match main_humidity main with
  | None => None
  | Some humidity =>
  match data_wind data with
  | None => None
  | Some wind =>
  match speed wind with
  | None => None
  | Some wind_speed =>
      Some (Reading (Some temp) (Some humidity) (Some description) None
              (Some wind_speed))
  end end end end end end end end.

(** How the query of [get_user_profile] ends. *)
Inductive query : Type :=
| QueryRaised                          (* the awaited call raises *)
| QueryFalsy                           (* [result] is falsy *)
| QueryResult (data : option profile). (* [result.data] *)

(** [str(weather_data)] of the error dictionary, for a message without
    quotes or backslashes. *)
Definition str_error_dict (error : string) : string :=
  ("{'error': '" ++ error ++ "'}")%string.

(** Truth value of [user_id]: a non-empty string. *)
Definition user_id_truthy (user_id : option string) : bool :=
  match user_id with
  | None | Some EmptyString => false
  | Some (String _ _) => true
  end.

Section Collaborators.

(** The weather provider, the profile store, and the text Python's
    formatting gives a number inside an f-string. *)
Variable provider : string -> response.
Variable store : string -> query.
Variable show : Py.number -> string.

Definition get_weather_data (city : string) : weather_dict :=
  match provider city with
  | Json data =>
      match weather_of_json data with
      | Some weather => WeatherDict weather
      | None => ErrorDict fetch_failed
      end
  | RequestFailed | NotJson => ErrorDict fetch_failed
  | StatusError => ErrorDict fetch_failed
  end.

Definition get_user_profile (user_id : string) : option profile :=
  match store user_id with
  | QueryResult data => data
  | QueryFalsy => None
  | QueryRaised => None
  end.

Definition get_weather_with_health_context (city : string) (user_id : option string)
  : Py.result string :=
  match get_weather_data city with
  | ErrorDict error => Py.ret (str_error_dict error)
  | WeatherDict weather_data =>
      temp <- Py.getitem "temp" (temp weather_data) ;;
      description <- Py.getitem "description" (description weather_data) ;;
      humidity <- Py.getitem "humidity" (humidity weather_data) ;;
      wind_speed <- Py.getitem "wind_speed" (wind_speed weather_data) ;;
      let response_parts :=
        [ ("🌡️ Current weather in " ++ city ++ ":")%string;
          ("Temperature: " ++ show temp ++ "°C")%string;
          ("Conditions: " ++ description)%string;
          ("Humidity: " ++ show humidity ++ "%")%string;
          ("Wind Speed: " ++ show wind_speed ++ " m/s")%string;
          EmptyString ] in
      let user_profile : option profile := None in
      let user_profile :=
        match user_id with
        | Some id => if user_id_truthy user_id then get_user_profile id else user_profile
        | None => user_profile
        end in
      recommendations <- get_comprehensive_recommendations weather_data user_profile ;;
      let formatted_recommendations := format_recommendations recommendations in
      let response_parts := response_parts ++ [formatted_recommendations] in
      Py.ret (Py.join Text.newline response_parts)
  end.

End Collaborators.

(** ** The chat endpoint

    [WeatherAgent.run] and [handle_chat_with_agent].  The conversational
    agent, with the memory it keeps from one request to the next, and
    the parsing of the request are outside; what they answer is an
    input. *)

(** A JSON value as [request.get_json()] hands it over. *)
#[warnings="-register-all"]
Inductive json : Type :=
| JNull
| JBool (b : bool)
| JNumber (n : Py.number)
| JString (s : string)
| JArray (items : list json)
| JObject (fields : list (string * json)).

(** Truth value of a JSON value in Python. *)
Definition json_truthy (v : json) : bool :=
  match v with
  | JNull => false
  | JBool b => b
  | JNumber (Py.Fin q) => negb (Qeq_bool q 0)
  | JNumber _ => true
  | JString s => match s with EmptyString => false | String _ _ => true end
  | JArray items => Py.truthy items
  | JObject fields => Py.truthy fields
  end.

(** How the first three statements of the handler's [try] block end:
    an exception, with its text, or the two values read from the body
    with [data.get], [JNull] standing for an absent key. *)
Inductive chat_request : Type :=
| RequestRaised (error : string)
| RequestFields (message user_id : json).

(** The JSON documents the handler builds. *)
Inductive chat_json : Type :=
| ResponseJson (response : string)
| ErrorJson (error : string)
| FailureJson (error message : string).

Section Chat.

(** The state of the one agent of the process (its conversation
    memory), and [self.agent.run(message, callbacks=None)]: the agent's
    answer, or the text of the exception it raises, and its new state. *)
Variable agent_state : Type.
Variable agent_run : agent_state -> json -> (string + string) * agent_state.

Definition WeatherAgent_run (message user_id : json) (agent : agent_state)
  : string * agent_state :=
  match agent_run agent message with
  | (inr answer, agent') => (answer, agent')
  | (inl e, agent') => (("I encountered an error: " ++ e)%string, agent')
  end.

Definition handle_chat_with_agent (request : chat_request) (agent : agent_state)
  : (chat_json * nat) * agent_state :=
  match request with
  | RequestRaised e => ((FailureJson e "Failed to process your request", 500), agent)
  | RequestFields message user_id =>
      if negb (json_truthy message)
      then ((ErrorJson "Message is required", 400), agent)
      else
        let (response, agent') := WeatherAgent_run message user_id agent in
        ((ResponseJson response, 200), agent')
  end.

End Chat.

(** ** The engine on the heap

    The same two functions with their lists as what they are in
    Python: mutable objects in the heap of the process, which outlive
    the call and can be reached and changed by anyone who holds them.
    [recommendations = []], the four empty lists of the dictionary
    and the list comprehension allocate a new object; [append] and
    [extend] change an object in place; the dictionary of the four
    categories holds references.  The literals handed to [extend] are
    temporaries that nothing keeps, and are passed as values. *)

Module Stateful.

Definition ref : Type := nat.

(** The list objects of the process, by address. *)
Definition heap : Type := list (list string).

Definition lookup (r : ref) (mem : heap) : list string := nth r mem [].

Fixpoint update (r : ref) (v : list string) (mem : heap) : heap :=
  match mem, r with
  | [], _ => []
  | _ :: rest, O => v :: rest
  | c :: rest, S r' => c :: update r' v rest
  end.

(** A computation that may raise and that reads and writes the heap. *)
Definition M (A : Type) : Type := heap -> Py.result A * heap.

Definition ret {A} (a : A) : M A := fun mem => (inr a, mem).

Definition bind {A B} (m : M A) (k : A -> M B) : M B :=
  fun mem =>
    match m mem with
    | (inl e, mem') => (inl e, mem')
    | (inr a, mem') => k a mem'
    end.

Definition lift {A} (m : Py.result A) : M A := fun mem => (m, mem).

Definition new_list (items : list string) : M ref :=
  fun mem => (inr (List.length mem), mem ++ [items]).

Definition read (r : ref) : M (list string) :=
  fun mem => (inr (lookup r mem), mem).

Definition extend (r : ref) (items : list string) : M unit :=
  fun mem => (inr tt, update r (lookup r mem ++ items) mem).

Definition append (r : ref) (item : string) : M unit := extend r [item].

Definition when (b : bool) (m : M unit) : M unit := if b then m else ret tt.

Fixpoint for_each {A} (body : A -> M unit) (l : list A) : M unit :=
  match l with
  | [] => ret tt
  | x :: rest => bind (body x) (fun _ => for_each body rest)
  end.

Notation "x <~ m ;; k" := (bind m (fun x => k))
  (at level 61, m at next level, right associativity).
Notation "m ;;; k" := (bind m (fun _ => k))
  (at level 61, right associativity).

(** The dictionary [recommendations]: four references. *)
Record dict : Type := Dict {
  health_ref : ref;
  activities_ref : ref;
  food_ref : ref;
  general_ref : ref
}.

Section Rules.

Variables (temp humidity : Py.number) (conditions : string).
Variable weather_data : reading.
Variable recommendations : ref.

Definition health_condition_rule (condition : string) : M unit :=
  let condition := Py.lower condition in
  if (condition =? "asthma")%string then
    when (Py.gt humidity (Py.int 70))
      (append recommendations Text.asthma_humidity) ;;;
    when (Py.contains "rain" conditions || Py.contains "mist" conditions)
      (append recommendations Text.asthma_damp)
  else if (condition =? "heart condition")%string then
    if Py.gt temp (Py.int 30) then append recommendations Text.heart_hot
    else if Py.lt temp (Py.int 5) then append recommendations Text.heart_cold
    else ret tt
  else if (condition =? "diabetes")%string then
    when (Py.gt temp (Py.int 30))
      (append recommendations Text.diabetes_heat) ;;;
    when (Py.gt humidity (Py.int 80))
      (append recommendations Text.diabetes_humidity)
  else ret tt.

Definition sensitivity_rule (sensitivity : string) : M unit :=
  let sensitivity := Py.lower sensitivity in
  if (sensitivity =? "cold")%string && Py.lt temp (Py.int 10)
  then append recommendations Text.sensitive_cold
  else if (sensitivity =? "heat")%string && Py.gt temp (Py.int 28)
  then append recommendations Text.sensitive_heat
  else if (sensitivity =? "humidity")%string && Py.gt humidity (Py.int 70)
  then append recommendations Text.sensitive_humidity
  else if (sensitivity =? "air quality")%string
          && Py.gt (Py.get (air_quality weather_data) (Py.int 0)) (Py.int 100)
  then append recommendations Text.sensitive_air
  else ret tt.

Definition allergy_rule (allergy : string) : M unit :=
  let allergy := Py.lower allergy in
  if (allergy =? "pollen")%string then
    when (Py.contains "clear" conditions || Py.contains "sunny" conditions)
      (append recommendations Text.allergy_pollen)
  else if (allergy =? "dust")%string then
    when (Py.contains "windy" conditions)
      (append recommendations Text.allergy_dust)
  else ret tt.

Definition profile_rules (user_profile : profile) : M unit :=
  for_each health_condition_rule (Py.get (health_conditions user_profile) []) ;;;
  for_each sensitivity_rule (Py.get (weather_sensitivities user_profile) []) ;;;
  for_each allergy_rule (Py.get (allergies user_profile) []).

End Rules.

Definition get_health_recommendations
  (weather_data : reading) (user_profile : option profile) : M ref :=
  recommendations <~ new_list [] ;;
  temp <~ lift (Py.getitem "temp" (temp weather_data)) ;;
  humidity <~ lift (Py.getitem "humidity" (humidity weather_data)) ;;
  description <~ lift (Py.getitem "description" (description weather_data)) ;;
  let conditions := Py.lower description in
  match user_profile with
  | Some p =>
      when (profile_truthy user_profile)
        (profile_rules temp humidity conditions weather_data recommendations p)
  | None => ret tt
  end ;;;
  ret recommendations.

Definition temperature_rules (temp : Py.number) (recommendations : dict) : M unit :=
  if Py.gt temp (Py.int 35) then
    extend (activities_ref recommendations) Text.hot_activities ;;;
    extend (food_ref recommendations) Text.hot_food ;;;
    extend (general_ref recommendations) Text.hot_general
  else if Py.le (Py.int 25) temp && Py.le temp (Py.int 35) then
    extend (activities_ref recommendations) Text.warm_activities ;;;
    extend (food_ref recommendations) Text.warm_food
  else
    extend (activities_ref recommendations) Text.mild_activities ;;;
    extend (food_ref recommendations) Text.mild_food.

Definition health_rules (weather_data : reading) (user_profile : option profile)
  (recommendations : dict) : M unit :=
  if profile_truthy user_profile then
    health_recs <~ get_health_recommendations weather_data user_profile ;;
    items <~ read health_recs ;;
    extend (health_ref recommendations) items
  else ret tt.

Definition condition_rules (conditions : string) (recommendations : dict) : M unit :=
  if Py.contains "rain" conditions then
    extend (general_ref recommendations) Text.rain_general
  else if Py.contains "clear" conditions then
    extend (general_ref recommendations) Text.clear_general
  else ret tt.

(** The comprehension builds a new list and the key ["activities"] is
    bound to it. *)
Definition air_quality_rules (weather_data : reading) (recommendations : dict)
  : M dict :=
  if Py.gt (Py.get (air_quality weather_data) (Py.int 0)) (Py.int 100) then
    append (health_ref recommendations) Text.mask ;;;
    acts <~ read (activities_ref recommendations) ;;
    kept <~ new_list (filter (fun act => negb (mentions_outdoor act)) acts) ;;
    ret (Dict (health_ref recommendations) kept
              (food_ref recommendations) (general_ref recommendations))
  else ret recommendations.

Definition get_comprehensive_recommendations
  (weather_data : reading) (user_profile : option profile) : M dict :=
  temp <~ lift (Py.getitem "temp" (temp weather_data)) ;;
  humidity <~ lift (Py.getitem "humidity" (humidity weather_data)) ;;
  description <~ lift (Py.getitem "description" (description weather_data)) ;;
  let conditions := Py.lower description in
  health_advice <~ new_list [] ;;
  activities <~ new_list [] ;;
  food_suggestions <~ new_list [] ;;
  general_advice <~ new_list [] ;;
  let recommendations := Dict health_advice activities food_suggestions general_advice in
  temperature_rules temp recommendations ;;;
  health_rules weather_data user_profile recommendations ;;;
  condition_rules conditions recommendations ;;;
  recommendations <~ air_quality_rules weather_data recommendations ;;
  ret recommendations.

(** What the caller finds in the four lists of a returned dictionary. *)
Definition contents (recommendations : dict) (mem : heap) : advisory :=
  Advisory (lookup (health_ref recommendations) mem)
           (lookup (activities_ref recommendations) mem)
           (lookup (food_ref recommendations) mem)
           (lookup (general_ref recommendations) mem).

(** The outcome of a call as the caller sees it: the exception, or the
    contents of the four categories. *)
Definition observe (outcome : Py.result dict * heap) : Py.result advisory :=
  map_result (fun recommendations => contents recommendations (snd outcome))
    (fst outcome).

(** A heap in which other calls have left their lists. *)
Definition used_heap : heap :=
  [ ["stale"]; Text.hot_activities; []; [Text.mask; Text.mask] ].

End Stateful.

(** ** Further vocabulary *)

(** [text.split("\n")]: the lines of a text. *)
Fixpoint lines (text : string) : list string :=
  match text with
  | EmptyString => [EmptyString]
  | String a rest =>
      if Ascii.eqb a "010" then EmptyString :: lines rest
      else match lines rest with
           | line :: others => String a line :: others
           | [] => [String a EmptyString]
           end
  end.

Fixpoint newline_free (s : string) : bool :=
  match s with
  | EmptyString => true
  | String a rest => negb (Ascii.eqb a "010") && newline_free rest
  end.

(** The labels the three loops answer to, in lower case. *)
Definition known_conditions : list string := ["asthma"; "heart condition"; "diabetes"].
Definition known_sensitivities : list string := ["cold"; "heat"; "humidity"; "air quality"].
Definition known_allergies : list string := ["pollen"; "dust"].

Definition known (labels : list string) (label : string) : bool :=
  existsb (String.eqb (Py.lower label)) labels.

(** The profile without the labels no rule answers to. *)
Definition prune (p : profile) : profile :=
  Profile (user_id p)
    (option_map (filter (known known_conditions)) (health_conditions p))
    (option_map (filter (known known_sensitivities)) (weather_sensitivities p))
    (option_map (filter (known known_allergies)) (allergies p)).

(** The profile and the reading with their texts in lower case. *)
Definition lower_profile (p : profile) : profile :=
  Profile (user_id p)
    (option_map (map Py.lower) (health_conditions p))
    (option_map (map Py.lower) (weather_sensitivities p))
    (option_map (map Py.lower) (allergies p)).

Definition lower_description (w : reading) : reading :=
  Reading (temp w) (humidity w) (option_map Py.lower (description w))
    (air_quality w) (wind_speed w).

(** The label lists of an optional profile. *)
Definition conditions_of (user_profile : option profile) : list string :=
  match user_profile with
  | Some p => Py.get (health_conditions p) []
  | None => []
  end.

Definition sensitivities_of (user_profile : option profile) : list string :=
  match user_profile with
  | Some p => Py.get (weather_sensitivities p) []
  | None => []
  end.

Definition allergies_of (user_profile : option profile) : list string :=
  match user_profile with
  | Some p => Py.get (allergies p) []
  | None => []
  end.

(** Answers of the outside world used in the examples. *)
Module Fixture.

Definition london : owm_data :=
  OwmData (Some (OwmMain (Some (Py.Fin (185 # 10))) (Some (Py.int 82))))
          (Some [OwmWeather (Some "light rain")])
          (Some (OwmWind (Some (Py.Fin (36 # 10))))).

Definition no_conditions : owm_data :=
  OwmData (Some (OwmMain (Some (Py.int 18)) (Some (Py.int 82))))
          (Some [])
          (Some (OwmWind (Some (Py.int 3)))).

Definition provider (city : string) : response :=
  if (city =? "London")%string then Json london
  else if (city =? "Nowhere")%string then Json no_conditions
  else StatusError.

Definition store (user_id : string) : query :=
  if (user_id =? "u4")%string then QueryResult (Some Sample.full_profile)
  else if (user_id =? "gone")%string then QueryFalsy
  else QueryRaised.

(** A stand-in for the formatting of numbers. *)
Definition show (n : Py.number) : string :=
  match n with
  | Py.Fin _ => "n"
  | _ => "inf"
  end.

(** An agent that counts its calls and always raises. *)
Definition broken_agent (calls : nat) (message : json) : (string + string) * nat :=
  (inl "quota exceeded", S calls).

Definition blank_profile : profile := Profile (Some "u5") (Some []) None (Some []).
Definition shouting_profile : profile :=
  Profile (Some "u6") (Some ["ASTHMA"; "Migraine"]) (Some ["Humidity"; "noise"])
          (Some ["Pollen"]).
Definition damp : reading :=
  Reading (Sample.q 26) (Sample.q 85) (Some "Light RAIN") (Sample.q 120) None.

End Fixture.

Example test_hot_clear :
  get_comprehensive_recommendations Sample.hot_clear (Some Sample.asthma_profile)
  = inr (Advisory [Text.asthma_humidity] Text.hot_activities Text.hot_food
           (Text.hot_general ++ Text.clear_general)).
Proof. vm_compute. reflexivity. Qed.

Example test_mild_rain :
  get_comprehensive_recommendations Sample.mild_rain None
  = inr (Advisory [] Text.mild_activities Text.mild_food Text.rain_general).
Proof. vm_compute. reflexivity. Qed.

Example test_cold_clear :
  get_comprehensive_recommendations Sample.cold_clear (Some Sample.heart_profile)
  = inr (Advisory [Text.heart_cold] Text.mild_activities Text.mild_food
           Text.clear_general).
Proof. vm_compute. reflexivity. Qed.

(** ** Comparisons *)

Lemma Qlt_bool_iff (x y : Q) : Py.Qlt_bool x y = true <-> (x < y)%Q.
Proof.
  unfold Py.Qlt_bool. rewrite negb_true_iff.
  split; intro H.
  - apply Qnot_le_lt. intro Hle. apply Qle_bool_iff in Hle. congruence.
  - destruct (Qle_bool y x) eqn:E; [|reflexivity].
    apply Qle_bool_iff in E. exfalso. exact (Qlt_not_le _ _ H E).
Qed.

(** [a > b] and [a <= b] never hold together. *)
Lemma gt_not_le (a b : Py.number) : Py.gt a b = true -> Py.le a b = false.
Proof.
  unfold Py.gt.
  destruct a as [p| | |], b as [q| | |]; simpl; try congruence.
  intro H. apply Qlt_bool_iff in H.
  destruct (Qle_bool p q) eqn:E; [|reflexivity].
  apply Qle_bool_iff in E. exfalso. exact (Qlt_not_le _ _ H E).
Qed.

Lemma le_not_gt (a b : Py.number) : Py.le a b = true -> Py.gt a b = false.
Proof.
  intro H. destruct (Py.gt a b) eqn:E; [|reflexivity].
  apply gt_not_le in E. congruence.
Qed.

(** [a > b] and [a < c] exclude each other when [c <= b]. *)
Lemma gt_not_lt (a : Py.number) (b c : Z) :
  (c <= b)%Z -> Py.gt a (Py.int b) = true -> Py.lt a (Py.int c) = false.
Proof.
  intros Hcb. unfold Py.gt, Py.int.
  destruct a as [p| | |]; simpl; try congruence.
  intro H. apply Qlt_bool_iff in H.
  destruct (Py.Qlt_bool p (inject_Z c)) eqn:E; [|reflexivity].
  apply Qlt_bool_iff in E. exfalso.
  assert (Hz : (inject_Z c <= inject_Z b)%Q) by (rewrite <- Zle_Qle; exact Hcb).
  apply (Qlt_irrefl p).
  apply Qlt_trans with (inject_Z c); [exact E|].
  apply Qle_lt_trans with (inject_Z b); assumption.
Qed.

(** ** The pipeline in closed form *)

Lemma extend_health_nil (r : advisory) : extend_health [] r = r.
Proof. destruct r; unfold extend_health; simpl. now rewrite app_nil_r. Qed.

Lemma get_health_recommendations_eq weather_data user_profile t h d :
  provides weather_data t h d ->
  get_health_recommendations weather_data user_profile
  = inr (personal_advice t h (Py.lower d) weather_data user_profile).
Proof.
  intros (Ht & Hh & Hd).
  unfold get_health_recommendations. rewrite Ht, Hh, Hd.
  reflexivity.
Qed.

Lemma health_rules_eq weather_data user_profile t h d r :
  provides weather_data t h d ->
  health_rules weather_data user_profile r
  = inr (extend_health (personal_advice t h (Py.lower d) weather_data user_profile) r).
Proof.
  intros Hp. unfold health_rules.
  rewrite (get_health_recommendations_eq user_profile Hp).
  unfold personal_advice.
  destruct (profile_truthy user_profile) eqn:E.
  - reflexivity.
  - destruct user_profile; rewrite extend_health_nil; reflexivity.
Qed.

Lemma temperature_rules_eq t r :
  temperature_rules t r
  = Advisory (health_advice r)
      (activities r ++ band_activities (band_of t))
      (food_suggestions r ++ band_food (band_of t))
      (general_advice r ++ band_general (band_of t)).
Proof.
  unfold temperature_rules, band_of.
  destruct (Py.gt t (Py.int 35)).
  - reflexivity.
  - destruct (Py.le (Py.int 25) t && Py.le t (Py.int 35));
      destruct r; unfold extend_food, extend_activities; simpl;
      now rewrite app_nil_r.
Qed.

Lemma condition_rules_eq c r :
  condition_rules c r
  = Advisory (health_advice r) (activities r) (food_suggestions r)
      (general_advice r ++ condition_general c).
Proof.
  unfold condition_rules, condition_general.
  destruct (Py.contains "rain" c); [reflexivity|].
  destruct (Py.contains "clear" c); [reflexivity|].
  destruct r; simpl. now rewrite app_nil_r.
Qed.

Lemma air_quality_rules_eq weather_data r :
  air_quality_rules weather_data r
  = Advisory
      (health_advice r ++ (if override weather_data then [Text.mask] else []))
      (if override weather_data then keep_indoor (activities r) else activities r)
      (food_suggestions r) (general_advice r).
Proof.
  unfold air_quality_rules, override, air_quality_index.
  destruct (Py.gt (Py.get (air_quality weather_data) (Py.int 0)) (Py.int 100)).
  - reflexivity.
  - destruct r; simpl. now rewrite app_nil_r.
Qed.

(** What [get_comprehensive_recommendations] returns on a reading that
    carries the three required keys. *)
Lemma get_comprehensive_recommendations_eq weather_data user_profile t h d :
  provides weather_data t h d ->
  get_comprehensive_recommendations weather_data user_profile
  = inr (Advisory
           (personal_advice t h (Py.lower d) weather_data user_profile
              ++ (if override weather_data then [Text.mask] else []))
           (if override weather_data
            then keep_indoor (band_activities (band_of t))
            else band_activities (band_of t))
           (band_food (band_of t))
           (band_general (band_of t) ++ condition_general (Py.lower d))).
Proof.
  intros Hp. pose proof Hp as (Ht & Hh & Hd).
  unfold get_comprehensive_recommendations.
  rewrite Ht, Hh, Hd. unfold Py.getitem, Py.bind at 1 2 3.
  rewrite (health_rules_eq user_profile _ Hp).
  unfold Py.bind, Py.ret.
  rewrite air_quality_rules_eq, condition_rules_eq, temperature_rules_eq.
  reflexivity.
Qed.

(** A missing required key raises [KeyError], whatever the profile. *)
Lemma get_comprehensive_recommendations_missing weather_data user_profile :
  temp weather_data = None \/ humidity weather_data = None
  \/ description weather_data = None ->
  exists key, get_comprehensive_recommendations weather_data user_profile
              = inl (Py.KeyError key).
Proof.
  unfold get_comprehensive_recommendations.
  destruct (temp weather_data); [|eexists; reflexivity].
  destruct (humidity weather_data); [|eexists; reflexivity].
  destruct (description weather_data); [|eexists; reflexivity].
  intros [H|[H|H]]; discriminate.
Qed.

(** ** Membership in the literal lists *)

Lemma In_existsb_eqb (s : string) (l : list string) :
  In s l <-> existsb (String.eqb s) l = true.
Proof.
  rewrite existsb_exists. split.
  - intro H. exists s. split; [exact H|apply String.eqb_refl].
  - intros (x & Hx & E). apply String.eqb_eq in E. now subst.
Qed.

Lemma not_In_existsb_eqb (s : string) (l : list string) :
  existsb (String.eqb s) l = false -> ~ In s l.
Proof. intros E H. apply In_existsb_eqb in H. congruence. Qed.

Lemma Forall_forallb {A} (f : A -> bool) (l : list A) :
  forallb f l = true -> Forall (fun x => f x = true) l.
Proof. intro H. apply Forall_forall. now apply forallb_forall. Qed.

Lemma keep_indoor_sound (acts : list string) :
  Forall (fun act => mentions_outdoor act = false) (keep_indoor acts).
Proof.
  apply Forall_forall. intros act H.
  apply filter_In in H. destruct H as (_ & H).
  now apply negb_true_iff in H.
Qed.

Lemma keep_indoor_complete (acts : list string) (act : string) :
  In act acts -> mentions_outdoor act = false -> In act (keep_indoor acts).
Proof.
  intros Hin Hm. apply filter_In. split; [exact Hin|].
  now rewrite Hm.
Qed.

Lemma mentions_outdoor_false (act : string) :
  mentions_outdoor act = false <->
  Py.contains "outdoor" (Py.lower act) = false
  /\ Py.contains "outside" (Py.lower act) = false
  /\ Py.contains "beach" (Py.lower act) = false.
Proof.
  unfold mentions_outdoor, existsb.
  rewrite !orb_false_iff. tauto.
Qed.

(** The state the override works on: every stage before it has run. *)
Lemma override_runs_last weather_data user_profile t h d :
  provides weather_data t h d ->
  exists before : advisory,
    activities before = band_activities (band_of t)
    /\ get_comprehensive_recommendations weather_data user_profile
       = inr (air_quality_rules weather_data before).
Proof.
  intros Hp. pose proof Hp as (Ht & Hh & Hd).
  unfold get_comprehensive_recommendations.
  rewrite Ht, Hh, Hd. unfold Py.getitem, Py.bind at 1 2 3.
  rewrite (health_rules_eq user_profile _ Hp).
  unfold Py.bind, Py.ret.
  eexists. split; [|reflexivity].
  rewrite condition_rules_eq, temperature_rules_eq. reflexivity.
Qed.

(** ** Temperature-band properties *)

(** C1, as the code has it: for a reading above 35 degrees and any
    profile, [activities] holds no sightseeing entry and none of the
    mild-band entries; it holds the "avoid strenuous outdoor
    activities" entry exactly when the air-quality override does not
    fire, because the override filter removes that entry too (its text
    contains "outdoor"). *)
Theorem hot_band_activities weather_data user_profile t h d :
  provides weather_data t h d ->
  Py.gt t (Py.int 35) = true ->
  exists r,
    get_comprehensive_recommendations weather_data user_profile = inr r
    /\ (In Text.avoid_strenuous (activities r) <-> override weather_data = false)
    /\ Forall (fun act => Py.contains "sightseeing" (Py.lower act) = false)
         (activities r)
    /\ (forall act, In act Text.mild_activities -> ~ In act (activities r)).
Proof.
  intros Hp Hhot.
  eexists. split; [apply (get_comprehensive_recommendations_eq _ Hp)|].
  unfold band_of. rewrite Hhot. cbn [activities band_activities].
  destruct (override weather_data).
  - split; [|split].
    + split; [|discriminate].
      intro H. exfalso. revert H. apply not_In_existsb_eqb. reflexivity.
    + apply Forall_forall. intros act H.
      assert (F : forallb (fun a => negb (Py.contains "sightseeing" (Py.lower a)))
                    (keep_indoor Text.hot_activities) = true) by reflexivity.
      rewrite forallb_forall in F. apply F in H. now apply negb_true_iff in H.
    + intros act Hm Hin.
      assert (F : forallb (fun a => negb (existsb (String.eqb a) Text.mild_activities))
                    (keep_indoor Text.hot_activities) = true) by reflexivity.
      rewrite forallb_forall in F. apply F in Hin.
      apply negb_true_iff in Hin. apply In_existsb_eqb in Hm. congruence.
  - split; [|split].
    + split; [reflexivity|]. intros _. left. reflexivity.
    + apply Forall_forall. intros act H.
      assert (F : forallb (fun a => negb (Py.contains "sightseeing" (Py.lower a)))
                    Text.hot_activities = true) by reflexivity.
      rewrite forallb_forall in F. apply F in H. now apply negb_true_iff in H.
    + intros act Hm Hin.
      assert (F : forallb (fun a => negb (existsb (String.eqb a) Text.mild_activities))
                    Text.hot_activities = true) by reflexivity.
      rewrite forallb_forall in F. apply F in Hin.
      apply negb_true_iff in Hin. apply In_existsb_eqb in Hm. congruence.
Qed.

Lemma hot_band_activities_witness :
  provides Sample.hot_clear (Py.int 38) (Py.int 75) "clear sky"
  /\ exists r,
       get_comprehensive_recommendations Sample.hot_clear (Some Sample.asthma_profile)
       = inr r
       /\ In Text.avoid_strenuous (activities r).
Proof.
  assert (Hp : provides Sample.hot_clear (Py.int 38) (Py.int 75) "clear sky")
    by (repeat split; reflexivity).
  split; [exact Hp|].
  destruct (hot_band_activities (Some Sample.asthma_profile) Hp) as (r & E & A & _).
  - reflexivity.
  - exists r. split; [exact E|]. apply A. reflexivity.
Defined.

(** C1, as stated, fails: at 40 degrees with an air-quality index of 150
    the returned [activities] does not hold the "avoid strenuous
    outdoor activities" entry. *)
Lemma avoid_entry_filtered_out :
  provides Sample.hot_smog (Py.int 40) (Py.int 50) "haze"
  /\ Py.gt (Py.int 40) (Py.int 35) = true
  /\ exists r,
       get_comprehensive_recommendations Sample.hot_smog None = inr r
       /\ ~ In Text.avoid_strenuous (activities r).
Proof.
  split; [repeat split; reflexivity|].
  split; [reflexivity|].
  eexists. split; [reflexivity|].
  apply not_In_existsb_eqb. reflexivity.
Qed.

(** ** The air-quality override *)

(** C2: when the air-quality index is above 100, the returned
    [activities] is the band's list with exactly the entries that
    mention "outdoor", "outside" or "beach" (case-insensitively)
    removed: no surviving entry mentions a keyword, every band entry
    without a keyword survives, the order is the band's, the beach entry
    is gone, and the filter is the last stage, run on a state that holds
    all the band's activity entries. *)
Theorem override_filters_activities weather_data user_profile t h d :
  provides weather_data t h d ->
  Py.gt (air_quality_index weather_data) (Py.int 100) = true ->
  exists r,
    get_comprehensive_recommendations weather_data user_profile = inr r
    /\ Forall (fun act =>
                 Py.contains "outdoor" (Py.lower act) = false
                 /\ Py.contains "outside" (Py.lower act) = false
                 /\ Py.contains "beach" (Py.lower act) = false)
         (activities r)
    /\ ~ In Text.beach (activities r)
    /\ activities r
       = filter (fun act => negb (mentions_outdoor act)) (band_activities (band_of t))
    /\ (forall act,
          In act (band_activities (band_of t)) ->
          mentions_outdoor act = false -> In act (activities r))
    /\ exists before,
         activities before = band_activities (band_of t)
         /\ r = air_quality_rules weather_data before.
Proof.
  intros Hp Hq.
  destruct (override_runs_last user_profile Hp) as (before & Hb & Hrun).
  exists (air_quality_rules weather_data before).
  split; [exact Hrun|].
  assert (Ha : activities (air_quality_rules weather_data before)
               = keep_indoor (band_activities (band_of t))).
  { rewrite air_quality_rules_eq. unfold override. rewrite Hq, Hb. reflexivity. }
  rewrite Ha.
  split; [|split; [|split; [|split]]].
  - eapply Forall_impl; [|apply keep_indoor_sound].
    intros act H. now apply mentions_outdoor_false.
  - intro H. pose proof (keep_indoor_sound (band_activities (band_of t))) as F.
    rewrite Forall_forall in F. apply F in H. discriminate H.
  - reflexivity.
  - intros act Hin Hm. now apply keep_indoor_complete.
  - exists before. split; [exact Hb|reflexivity].
Qed.

Lemma override_filters_activities_witness :
  provides Sample.warm_smog (Py.int 30) (Py.int 50) "haze"
  /\ exists r,
       get_comprehensive_recommendations Sample.warm_smog (Some Sample.full_profile)
       = inr r
       /\ activities r = ["✅ Swimming"; "✅ Early morning/late evening walks"].
Proof.
  assert (Hp : provides Sample.warm_smog (Py.int 30) (Py.int 50) "haze")
    by (repeat split; reflexivity).
  split; [exact Hp|].
  destruct (override_filters_activities (Some Sample.full_profile) Hp)
    as (r & E & _ & _ & A & _).
  - reflexivity.
  - exists r. split; [exact E|]. rewrite A. reflexivity.
Defined.

(** C3: without a profile, [health_advice] is empty when the air-quality
    index is at most 100 (or is not above it at all), and is exactly the
    mask advisory when it is above 100. *)
Theorem health_advice_without_profile weather_data t h d :
  provides weather_data t h d ->
  exists r,
    get_comprehensive_recommendations weather_data None = inr r
    /\ (Py.le (air_quality_index weather_data) (Py.int 100) = true ->
        health_advice r = [])
    /\ (Py.gt (air_quality_index weather_data) (Py.int 100) = false ->
        health_advice r = [])
    /\ (Py.gt (air_quality_index weather_data) (Py.int 100) = true ->
        health_advice r = [Text.mask]).
Proof.
  intros Hp.
  eexists. split; [apply (get_comprehensive_recommendations_eq _ Hp)|].
  cbn [health_advice personal_advice app]. unfold override.
  split; [|split].
  - intro H. apply le_not_gt in H. now rewrite H.
  - intro H. now rewrite H.
  - intro H. now rewrite H.
Qed.

Lemma health_advice_without_profile_witness :
  provides Sample.hot_smog (Py.int 40) (Py.int 50) "haze"
  /\ exists r,
       get_comprehensive_recommendations Sample.hot_smog None = inr r
       /\ health_advice r = [Text.mask].
Proof.
  assert (Hp : provides Sample.hot_smog (Py.int 40) (Py.int 50) "haze")
    by (repeat split; reflexivity).
  split; [exact Hp|].
  destruct (health_advice_without_profile Hp) as (r & E & _ & _ & A).
  exists r. split; [exact E|]. apply A. reflexivity.
Defined.

(** ** Food templates *)

(** Closes the propositional goals left once the comparisons of a band
    test are known. *)
Ltac decide_band :=
  repeat match goal with
    | |- ?a = ?a => reflexivity
    | H : _ = _ |- _ => discriminate H
    | H : _ /\ _ |- _ => destruct H
    | |- _ /\ _ => split
    | |- _ <-> _ => split
    | |- _ -> _ => intro
    | |- ~ _ => intro
    | H : ~ _ |- _ => exfalso; apply H
    end.

Lemma band_food_injective (b b' : band) : band_food b = band_food b' -> b = b'.
Proof. destruct b, b'; intro H; try reflexivity; discriminate H. Qed.

(** C4: [food_suggestions] is the template of the reading's band and of
    no other band, whatever the profile; the band depends on the
    temperature alone: hot exactly above 35, warm exactly from 25 to 35,
    mild in every other case; the hot and the warm tests never hold
    together, so the bands partition the temperatures. *)
Theorem one_food_template weather_data user_profile t h d :
  provides weather_data t h d ->
  exists r,
    get_comprehensive_recommendations weather_data user_profile = inr r
    /\ (forall b, food_suggestions r = band_food b <-> b = band_of t)
    /\ (band_of t = Hot <-> Py.gt t (Py.int 35) = true)
    /\ (band_of t = Warm <->
        Py.le (Py.int 25) t = true /\ Py.le t (Py.int 35) = true)
    /\ (band_of t = Mild <->
        Py.gt t (Py.int 35) = false
        /\ ~ (Py.le (Py.int 25) t = true /\ Py.le t (Py.int 35) = true))
    /\ (Py.gt t (Py.int 35) = true -> Py.le t (Py.int 35) = false).
Proof.
  intros Hp.
  eexists. split; [apply (get_comprehensive_recommendations_eq _ Hp)|].
  cbn [food_suggestions].
  split.
  { intro b. split; intro H.
    - symmetry. now apply band_food_injective.
    - now subst. }
  unfold band_of.
  destruct (Py.gt t (Py.int 35)) eqn:G.
  - rewrite (gt_not_le _ _ G). decide_band.
  - destruct (Py.le (Py.int 25) t), (Py.le t (Py.int 35)); cbn [andb]; decide_band.
Qed.

Lemma one_food_template_witness :
  provides Sample.from_provider (Py.Fin (2835 # 100)) (Py.int 60) "Scattered Clouds"
  /\ exists r,
       get_comprehensive_recommendations Sample.from_provider (Some Sample.full_profile)
       = inr r
       /\ food_suggestions r = Text.warm_food.
Proof.
  assert (Hp : provides Sample.from_provider (Py.Fin (2835 # 100)) (Py.int 60)
                 "Scattered Clouds")
    by (repeat split; reflexivity).
  split; [exact Hp|].
  destruct (one_food_template (Some Sample.full_profile) Hp) as (r & E & A & _).
  exists r. split; [exact E|]. apply (A Warm). reflexivity.
Defined.

(** ** Totality *)

(** C7: on a reading that carries [temp], [humidity] and [description]
    (with [air_quality] read as 0 when the key is absent) and any
    profile, both functions of the engine return a value and raise
    nothing, and the formatter, which is defined on every advisory,
    returns its text. *)
Theorem no_exception weather_data user_profile t h d :
  provides weather_data t h d ->
  (air_quality weather_data = None -> air_quality_index weather_data = Py.int 0)
  /\ (exists recs, get_health_recommendations weather_data user_profile = inr recs)
  /\ exists r,
       get_comprehensive_recommendations weather_data user_profile = inr r
       /\ exists text, format_recommendations r = text.
Proof.
  intros Hp. split; [|split].
  - intros E. unfold air_quality_index. now rewrite E.
  - eexists. apply (get_health_recommendations_eq _ Hp).
  - eexists. split; [apply (get_comprehensive_recommendations_eq _ Hp)|].
    eexists. reflexivity.
Qed.

Lemma no_exception_witness :
  provides Sample.from_provider (Py.Fin (2835 # 100)) (Py.int 60) "Scattered Clouds"
  /\ exists r,
       get_comprehensive_recommendations Sample.from_provider (Some Sample.full_profile)
       = inr r.
Proof.
  assert (Hp : provides Sample.from_provider (Py.Fin (2835 # 100)) (Py.int 60)
                 "Scattered Clouds")
    by (repeat split; reflexivity).
  split; [exact Hp|].
  destruct (no_exception (Some Sample.full_profile) Hp) as (_ & _ & r & E & _).
  exists r. exact E.
Defined.

(** ** The profile and the other categories *)

(** C10: for a fixed reading, [activities], [food_suggestions] and
    [general_advice] are the same with any profile as with none; on a
    reading that lacks a required key both calls raise the same
    [KeyError]. *)
Theorem profile_only_reaches_health weather_data (p : profile) :
  map_result outside_health
    (get_comprehensive_recommendations weather_data (Some p))
  = map_result outside_health
      (get_comprehensive_recommendations weather_data None).
Proof.
  destruct (temp weather_data) as [t|] eqn:Ht;
    [|unfold get_comprehensive_recommendations; rewrite Ht; reflexivity].
  destruct (humidity weather_data) as [h|] eqn:Hh;
    [|unfold get_comprehensive_recommendations; rewrite Ht, Hh; reflexivity].
  destruct (description weather_data) as [d|] eqn:Hd;
    [|unfold get_comprehensive_recommendations; rewrite Ht, Hh, Hd; reflexivity].
  assert (Hp : provides weather_data t h d) by (repeat split; assumption).
  rewrite (get_comprehensive_recommendations_eq (Some p) Hp).
  rewrite (get_comprehensive_recommendations_eq None Hp).
  reflexivity.
Qed.

(** ** Layout of the formatted text *)

Lemma render_separated heading entries (sections : list string) :
  (if Py.truthy entries
   then ((sections ++ [heading]) ++ entries) ++ [EmptyString]
   else sections)
  = sections ++ render heading true entries.
Proof.
  destruct entries as [|e entries]; cbn [Py.truthy render].
  - now rewrite app_nil_r.
  - rewrite <- !app_assoc. reflexivity.
Qed.

Lemma render_last heading entries (sections : list string) :
  (if Py.truthy entries then (sections ++ [heading]) ++ entries else sections)
  = sections ++ render heading false entries.
Proof.
  destruct entries as [|e entries]; cbn [Py.truthy render].
  - now rewrite app_nil_r.
  - rewrite <- !app_assoc. cbn [app]. now rewrite app_nil_r.
Qed.

(** C6, as the code has it: the text is the lines of the four
    categories, in the order health, activities, food, general, joined
    by newlines.  An empty category gives no line at all; a populated
    one gives its heading and then its entries, one per line.  Each
    populated category among health, activities and food is followed by
    an empty separator line, whether or not another section is rendered
    after it; the general category, last in the order, is followed by
    none.  With four empty categories the text is the empty string. *)
Theorem format_layout (r : advisory) :
  format_recommendations r
  = Py.join Text.newline
      (render Text.health_heading true (health_advice r)
       ++ render Text.activity_heading true (activities r)
       ++ render Text.food_heading true (food_suggestions r)
       ++ render Text.general_heading false (general_advice r))
  /\ (forall heading separator, render heading separator [] = [])
  /\ (forall heading e entries,
        render heading true (e :: entries)
        = heading :: (e :: entries) ++ [EmptyString])
  /\ (forall heading e entries,
        render heading false (e :: entries) = heading :: e :: entries)
  /\ (health_advice r = [] -> activities r = [] ->
      food_suggestions r = [] -> general_advice r = [] ->
      format_recommendations r = EmptyString).
Proof.
  assert (E : format_recommendations r = Py.join Text.newline (layout r)).
  { unfold format_recommendations, layout.
    rewrite !render_separated, render_last.
    rewrite <- !app_assoc. reflexivity. }
  split; [exact E|].
  split; [reflexivity|].
  split; [reflexivity|].
  split.
  - intros heading e entries. cbn [render]. now rewrite app_nil_r.
  - intros H1 H2 H3 H4. rewrite E. unfold layout.
    rewrite H1, H2, H3, H4. reflexivity.
Qed.

Example format_health_and_food :
  format_recommendations (Advisory [Text.heart_cold] [] Text.mild_food [])
  = "🏥 Health Recommendations:
❄️ Cold weather can affect blood pressure. Stay warm and avoid overexertion.

🍽️ Food & Hydration Advice:
🥤 Regular water intake
🍽️ Regular balanced meals
🥪 Pack snacks for outdoor activities
".
Proof. reflexivity. Qed.

Example format_general_only :
  format_recommendations (Advisory [] [] [] Text.rain_general)
  = "💡 General Advice:
☔ Carry an umbrella
🧥 Wear waterproof clothing
👟 Wear appropriate footwear".
Proof. reflexivity. Qed.

(** ** Readings with the same values *)

Lemma lt_same_value a a' b b' :
  Py.same_value a a' -> Py.same_value b b' -> Py.lt a b = Py.lt a' b'.
Proof.
  destruct a, a', b, b'; simpl; try contradiction; try reflexivity.
  intros Ha Hb. unfold Py.Qlt_bool. now rewrite Ha, Hb.
Qed.

Lemma le_same_value a a' b b' :
  Py.same_value a a' -> Py.same_value b b' -> Py.le a b = Py.le a' b'.
Proof.
  destruct a, a', b, b'; simpl; try contradiction; try reflexivity.
  intros Ha Hb. now rewrite Ha, Hb.
Qed.

Lemma same_value_refl a : Py.same_value a a.
Proof. destruct a; simpl; [reflexivity|exact I..]. Qed.

Lemma gt_same_value a a' (k : Z) :
  Py.same_value a a' -> Py.gt a (Py.int k) = Py.gt a' (Py.int k).
Proof.
  intro H. unfold Py.gt. apply lt_same_value; [apply same_value_refl|exact H].
Qed.

Lemma band_of_same_value t t' : Py.same_value t t' -> band_of t = band_of t'.
Proof.
  intro H. unfold band_of.
  rewrite (@gt_same_value _ _ 35%Z H).
  rewrite (le_same_value (Py.int 25) (Py.int 25) t t' (same_value_refl _) H).
  rewrite (le_same_value t t' (Py.int 35) (Py.int 35) H (same_value_refl _)).
  reflexivity.
Qed.

Lemma override_same_value w1 w2 :
  same_field (air_quality w1) (air_quality w2) -> override w1 = override w2.
Proof.
  unfold override, air_quality_index.
  destruct (air_quality w1), (air_quality w2); simpl; try contradiction.
  - apply gt_same_value.
  - reflexivity.
Qed.

Lemma fold_left_pointwise {A B} (f g : A -> B -> A) :
  (forall a b, f a b = g a b) ->
  forall l a, fold_left f l a = fold_left g l a.
Proof.
  intros E l. induction l as [|b l IH]; intro a; simpl.
  - reflexivity.
  - rewrite E. apply IH.
Qed.

Section SameValues.

Variables (t t' h h' : Py.number) (c : string) (w1 w2 : reading).
Hypothesis Ht : Py.same_value t t'.
Hypothesis Hh : Py.same_value h h'.
Hypothesis Hq : same_field (air_quality w1) (air_quality w2).

Lemma health_condition_rule_same_value recs x :
  health_condition_rule t h c recs x = health_condition_rule t' h' c recs x.
Proof.
  unfold health_condition_rule.
  rewrite (@gt_same_value _ _ 70%Z Hh), (@gt_same_value _ _ 80%Z Hh), (@gt_same_value _ _ 30%Z Ht).
  rewrite (lt_same_value t t' (Py.int 5) (Py.int 5) Ht (same_value_refl _)).
  reflexivity.
Qed.

Lemma sensitivity_rule_same_value recs x :
  sensitivity_rule t h w1 recs x = sensitivity_rule t' h' w2 recs x.
Proof.
  unfold sensitivity_rule.
  rewrite (@gt_same_value _ _ 70%Z Hh), (@gt_same_value _ _ 28%Z Ht).
  rewrite (lt_same_value t t' (Py.int 10) (Py.int 10) Ht (same_value_refl _)).
  pose proof (override_same_value w1 w2 Hq) as Ho.
  unfold override, air_quality_index in Ho. rewrite Ho.
  reflexivity.
Qed.

Lemma personal_advice_same_value user_profile :
  personal_advice t h c w1 user_profile = personal_advice t' h' c w2 user_profile.
Proof.
  unfold personal_advice.
  destruct user_profile as [p|]; [|reflexivity].
  destruct (profile_truthy (Some p)); [|reflexivity].
  unfold profile_rules.
  rewrite (fold_left_pointwise _ _ health_condition_rule_same_value).
  rewrite (fold_left_pointwise _ _ sensitivity_rule_same_value).
  reflexivity.
Qed.

End SameValues.

(** The rules read the temperature, the humidity, the description and
    the air-quality index, by their values, and nothing else. *)
Lemma rules_read_four_fields w1 w2 user_profile :
  same_but_wind w1 w2 ->
  get_comprehensive_recommendations w1 user_profile
  = get_comprehensive_recommendations w2 user_profile.
Proof.
  intros (Ht & Hh & Hd & Hq).
  destruct (temp w1) as [t|] eqn:T1, (temp w2) as [t'|] eqn:T2;
    simpl in Ht; try contradiction;
    [|unfold get_comprehensive_recommendations; rewrite T1, T2; reflexivity].
  destruct (humidity w1) as [h|] eqn:H1, (humidity w2) as [h'|] eqn:H2;
    simpl in Hh; try contradiction;
    [|unfold get_comprehensive_recommendations; rewrite T1, T2, H1, H2; reflexivity].
  destruct (description w1) as [d|] eqn:D1;
    [|unfold get_comprehensive_recommendations;
      rewrite T1, T2, H1, H2, D1, <- Hd; reflexivity].
  assert (P1 : provides w1 t h d) by (repeat split; assumption).
  assert (P2 : provides w2 t' h' d) by (repeat split; congruence).
  rewrite (get_comprehensive_recommendations_eq user_profile P1).
  rewrite (get_comprehensive_recommendations_eq user_profile P2).
  rewrite (@personal_advice_same_value t t' h h' (Py.lower d) w1 w2 Ht Hh Hq user_profile).
  rewrite (override_same_value w1 w2 Hq), (@band_of_same_value t t' Ht).
  reflexivity.
Qed.

Lemma same_field_refl (a : option Py.number) : same_field a a.
Proof. destruct a; simpl; [apply same_value_refl|exact I]. Qed.

(** Every reading is the same reading as itself. *)
Lemma same_reading_refl (w : reading) : same_reading w w.
Proof. repeat split; apply same_field_refl. Qed.

(** Readings that are equal as Python dictionaries, their numbers
    compared by value so that 25 and 25.0 are the same temperature, get
    the same advisory ([same_reading_refl]: in particular a reading and
    itself). *)
Theorem same_inputs_same_advisory w1 w2 user_profile :
  same_reading w1 w2 ->
  get_comprehensive_recommendations w1 user_profile
  = get_comprehensive_recommendations w2 user_profile.
Proof.
  intros (H & _). now apply rules_read_four_fields.
Qed.

(** C9: two readings that agree on temperature, humidity, description
    and air-quality index give the same advisory whatever their wind
    speeds are (present or not, equal or not). *)
Theorem wind_speed_is_not_read w1 w2 user_profile :
  temp w1 = temp w2 ->
  humidity w1 = humidity w2 ->
  description w1 = description w2 ->
  air_quality w1 = air_quality w2 ->
  get_comprehensive_recommendations w1 user_profile
  = get_comprehensive_recommendations w2 user_profile.
Proof.
  intros Ht Hh Hd Hq.
  assert (R : forall a b : option Py.number, a = b -> same_field a b).
  { intros a b ->. destruct b; simpl; [apply same_value_refl|exact I]. }
  apply rules_read_four_fields. repeat split; auto.
Qed.

Lemma same_inputs_same_advisory_witness :
  same_reading Sample.warm_int Sample.warm_float
  /\ get_comprehensive_recommendations Sample.warm_int (Some Sample.full_profile)
     = get_comprehensive_recommendations Sample.warm_float (Some Sample.full_profile).
Proof.
  assert (H : same_reading Sample.warm_int Sample.warm_float).
  { unfold same_reading, same_but_wind. simpl. unfold Qeq. simpl.
    repeat split; reflexivity. }
  split; [exact H|].
  apply (same_inputs_same_advisory (Some Sample.full_profile) H).
Defined.

Lemma wind_speed_is_not_read_witness :
  wind_speed Sample.warm_int <> wind_speed Sample.warm_gale
  /\ get_comprehensive_recommendations Sample.warm_int (Some Sample.full_profile)
     = get_comprehensive_recommendations Sample.warm_gale (Some Sample.full_profile).
Proof.
  split; [discriminate|].
  apply (@wind_speed_is_not_read Sample.warm_int Sample.warm_gale
           (Some Sample.full_profile)); reflexivity.
Defined.

(** ** The heart-condition rule *)

Lemma count_app s l l' : count s (l ++ l') = count s l + count s l'.
Proof. unfold count. now rewrite filter_app, length_app. Qed.

(** A loop whose body only appends: what it adds to the count of [s]. *)
Lemma count_fold_left (f : list string -> string -> list string) (s : string) :
  (forall acc x, f acc x = acc ++ f [] x) ->
  forall l acc,
    count s (fold_left f l acc)
    = count s acc + list_sum (map (fun x => count s (f [] x)) l).
Proof.
  intros Hf l. induction l as [|x l IH]; intro acc; simpl.
  - now rewrite Nat.add_0_r.
  - rewrite IH, Hf, count_app. now rewrite Nat.add_assoc.
Qed.

Section HeartRule.

Variables (t h : Py.number) (c : string) (w : reading).

Lemma health_condition_rule_app recs x :
  health_condition_rule t h c recs x = recs ++ health_condition_rule t h c [] x.
Proof.
  unfold health_condition_rule.
  repeat match goal with
         | |- context [if ?b then _ else _] => destruct b
         end;
    cbn [app]; rewrite <- ?app_assoc, ?app_nil_r; reflexivity.
Qed.

Lemma sensitivity_rule_app recs x :
  sensitivity_rule t h w recs x = recs ++ sensitivity_rule t h w [] x.
Proof.
  unfold sensitivity_rule.
  repeat match goal with
         | |- context [if ?b then _ else _] => destruct b
         end;
    cbn [app]; rewrite ?app_nil_r; reflexivity.
Qed.

Lemma allergy_rule_app recs x :
  allergy_rule c recs x = recs ++ allergy_rule c [] x.
Proof.
  unfold allergy_rule.
  repeat match goal with
         | |- context [if ?b then _ else _] => destruct b
         end;
    cbn [app]; rewrite ?app_nil_r; reflexivity.
Qed.

(** An entry the rule answers to appends [heart_warning]. *)
Lemma health_condition_rule_heart recs x :
  is_heart_condition x = true ->
  health_condition_rule t h c recs x = recs ++ heart_warning t.
Proof.
  unfold is_heart_condition. intro E.
  unfold health_condition_rule, heart_warning.
  apply String.eqb_eq in E. rewrite E. cbn [String.eqb Ascii.eqb Bool.eqb].
  destruct (Py.gt t (Py.int 30)); [reflexivity|].
  destruct (Py.lt t (Py.int 5)); [reflexivity|].
  now rewrite app_nil_r.
Qed.

(** Any other entry appends neither heart warning. *)
Lemma health_condition_rule_other s x :
  s = Text.heart_hot \/ s = Text.heart_cold ->
  is_heart_condition x = false ->
  count s (health_condition_rule t h c [] x) = 0.
Proof.
  unfold is_heart_condition. intros Hs E.
  unfold health_condition_rule. rewrite E.
  destruct Hs as [-> | ->];
    repeat match goal with
           | |- context [if ?b then _ else _] => destruct b
           end; reflexivity.
Qed.

Lemma sensitivity_rule_no_heart s x :
  s = Text.heart_hot \/ s = Text.heart_cold ->
  count s (sensitivity_rule t h w [] x) = 0.
Proof.
  intros Hs. unfold sensitivity_rule.
  destruct Hs as [-> | ->];
    repeat match goal with
           | |- context [if ?b then _ else _] => destruct b
           end; reflexivity.
Qed.

Lemma allergy_rule_no_heart s x :
  s = Text.heart_hot \/ s = Text.heart_cold ->
  count s (allergy_rule c [] x) = 0.
Proof.
  intros Hs. unfold allergy_rule.
  destruct Hs as [-> | ->];
    repeat match goal with
           | |- context [if ?b then _ else _] => destruct b
           end; reflexivity.
Qed.

Lemma list_sum_zero {A} (f : A -> nat) (l : list A) :
  (forall x, f x = 0) -> list_sum (map f l) = 0.
Proof.
  intro H. induction l as [|x l IH]; simpl; [reflexivity|].
  now rewrite H, IH.
Qed.

Lemma count_health_conditions s l :
  s = Text.heart_hot \/ s = Text.heart_cold ->
  list_sum (map (fun x => count s (health_condition_rule t h c [] x)) l)
  = List.length (filter is_heart_condition l) * count s (heart_warning t).
Proof.
  intro Hs. induction l as [|x l IH]; simpl; [reflexivity|].
  rewrite IH. destruct (is_heart_condition x) eqn:E.
  - rewrite (@health_condition_rule_heart [] x E). reflexivity.
  - now rewrite (@health_condition_rule_other s x Hs E).
Qed.

Lemma count_profile_rules s p :
  s = Text.heart_hot \/ s = Text.heart_cold ->
  count s (profile_rules t h c w [] p)
  = heart_entries (Some p) * count s (heart_warning t).
Proof.
  intro Hs. unfold profile_rules, heart_entries.
  rewrite (count_fold_left _ s allergy_rule_app).
  rewrite (count_fold_left _ s sensitivity_rule_app).
  rewrite (count_fold_left _ s health_condition_rule_app).
  rewrite (list_sum_zero _ _ (fun x => @allergy_rule_no_heart s x Hs)).
  rewrite (list_sum_zero _ _ (fun x => @sensitivity_rule_no_heart s x Hs)).
  rewrite (@count_health_conditions s _ Hs).
  cbn [count filter List.length]. lia.
Qed.

Lemma count_personal_advice s user_profile :
  s = Text.heart_hot \/ s = Text.heart_cold ->
  count s (personal_advice t h c w user_profile)
  = heart_entries user_profile * count s (heart_warning t).
Proof.
  intro Hs. unfold personal_advice.
  destruct user_profile as [p|]; [|reflexivity].
  destruct (profile_truthy (Some p)) eqn:E.
  - now apply count_profile_rules.
  - unfold heart_entries. unfold profile_truthy in E.
    destruct (health_conditions p); [|reflexivity].
    destruct (user_id p); discriminate E.
Qed.

End HeartRule.

(** Evaluates the counts taken in literal lists. *)
Ltac eval_counts :=
  repeat match goal with
    | |- context [count ?s ?l] =>
        let v := eval vm_compute in (count s l) in
        change (count s l) with v
    end.

(** C5, as the code has it: every entry of [health_conditions] that
    lowers to "heart condition" appends at most one warning, the hot one
    exactly when the temperature is above 30 and otherwise the cold one
    exactly when it is below 5 (the hot test comes first, and the two
    tests never hold together).  So with [n] such entries
    [health_advice] holds [n] hot warnings, or [n] cold ones, or none,
    never both kinds, and at most one warning when exactly one entry
    answers to the rule. *)
Theorem heart_condition_warnings weather_data user_profile t h d :
  provides weather_data t h d ->
  exists r,
    get_comprehensive_recommendations weather_data user_profile = inr r
    /\ count Text.heart_hot (health_advice r)
       = (if Py.gt t (Py.int 30) then heart_entries user_profile else 0)
    /\ count Text.heart_cold (health_advice r)
       = (if Py.gt t (Py.int 30) then 0
          else if Py.lt t (Py.int 5) then heart_entries user_profile else 0)
    /\ (forall recs x,
          is_heart_condition x = true ->
          health_condition_rule t h (Py.lower d) recs x
          = recs ++ (if Py.gt t (Py.int 30) then [Text.heart_hot]
                     else if Py.lt t (Py.int 5) then [Text.heart_cold]
                     else []))
    /\ (heart_entries user_profile = 1 ->
        count Text.heart_hot (health_advice r)
        + count Text.heart_cold (health_advice r) <= 1)
    /\ (Py.gt t (Py.int 30) = true -> Py.lt t (Py.int 5) = false).
Proof.
  intros Hp.
  eexists. split; [apply (get_comprehensive_recommendations_eq _ Hp)|].
  cbn [health_advice].
  assert (Hhot : count Text.heart_hot
                   (personal_advice t h (Py.lower d) weather_data user_profile
                    ++ (if override weather_data then [Text.mask] else []))
                 = (if Py.gt t (Py.int 30) then heart_entries user_profile else 0)).
  { rewrite count_app, count_personal_advice by (left; reflexivity).
    unfold heart_warning.
    destruct (override weather_data), (Py.gt t (Py.int 30)), (Py.lt t (Py.int 5));
      eval_counts; lia. }
  assert (Hcold : count Text.heart_cold
                    (personal_advice t h (Py.lower d) weather_data user_profile
                     ++ (if override weather_data then [Text.mask] else []))
                  = (if Py.gt t (Py.int 30) then 0
                     else if Py.lt t (Py.int 5) then heart_entries user_profile else 0)).
  { rewrite count_app, count_personal_advice by (right; reflexivity).
    unfold heart_warning.
    destruct (override weather_data), (Py.gt t (Py.int 30)), (Py.lt t (Py.int 5));
      eval_counts; lia. }
  rewrite Hhot, Hcold.
  split; [reflexivity|]. split; [reflexivity|].
  split; [|split].
  - intros recs x E. apply (@health_condition_rule_heart t h (Py.lower d) recs x E).
  - intros ->. destruct (Py.gt t (Py.int 30)), (Py.lt t (Py.int 5)); lia.
  - apply gt_not_lt. lia.
Qed.

Lemma heart_condition_warnings_witness :
  provides Sample.cold_clear (Py.int 2) (Py.int 40) "clear"
  /\ exists r,
       get_comprehensive_recommendations Sample.cold_clear (Some Sample.heart_profile)
       = inr r
       /\ count Text.heart_hot (health_advice r) = 0
       /\ count Text.heart_cold (health_advice r) = 1.
Proof.
  assert (Hp : provides Sample.cold_clear (Py.int 2) (Py.int 40) "clear")
    by (repeat split; reflexivity).
  split; [exact Hp|].
  destruct (heart_condition_warnings (Some Sample.heart_profile) Hp)
    as (r & E & Hhot & Hcold & _).
  exists r. split; [exact E|]. split.
  - rewrite Hhot. reflexivity.
  - rewrite Hcold. reflexivity.
Defined.

(** C5, as stated, fails: a profile whose [health_conditions] holds
    "heart condition" and the same label in another case gets the cold
    warning twice in one evaluation at 2 degrees. *)
Lemma heart_warning_repeated :
  provides Sample.cold_clear (Py.int 2) (Py.int 40) "clear"
  /\ In "heart condition" (Py.get (health_conditions Sample.heart_twice) [])
  /\ exists r,
       get_comprehensive_recommendations Sample.cold_clear (Some Sample.heart_twice)
       = inr r
       /\ health_advice r = [Text.heart_cold; Text.heart_cold].
Proof.
  split; [repeat split; reflexivity|].
  split; [left; reflexivity|].
  eexists. split; reflexivity.
Qed.

Lemma format_layout_witness :
  format_recommendations (Advisory [] [] [] []) = EmptyString
  /\ format_recommendations (Advisory [Text.mask] [] [] Text.rain_general)
     = Py.join Text.newline
         ([Text.health_heading; Text.mask; EmptyString]
          ++ Text.general_heading :: Text.rain_general).
Proof.
  split.
  - apply (format_layout (Advisory [] [] [] [])); reflexivity.
  - destruct (format_layout (Advisory [Text.mask] [] [] Text.rain_general)) as (E & _).
    rewrite E. reflexivity.
Defined.

(** * Further properties of the code *)

(** ** Loops that append *)

Lemma fold_left_flat_map {A} (f : list string -> A -> list string) :
  (forall acc x, f acc x = acc ++ f [] x) ->
  forall l acc, fold_left f l acc = acc ++ flat_map (f []) l.
Proof.
  intros Hf l. induction l as [|x l IH]; intro acc; simpl.
  - now rewrite app_nil_r.
  - rewrite IH, Hf. now rewrite <- app_assoc.
Qed.

Lemma flat_map_filter {A B} (keep : A -> bool) (g : A -> list B) (l : list A) :
  (forall x, keep x = false -> g x = []) ->
  flat_map g (filter keep l) = flat_map g l.
Proof.
  intro H. induction l as [|x l IH]; simpl; [reflexivity|].
  destruct (keep x) eqn:E; simpl.
  - now rewrite IH.
  - now rewrite (H x E), IH.
Qed.

Lemma flat_map_pointwise {A B} (f g : A -> list B) (l : list A) :
  (forall x, f x = g x) -> flat_map f l = flat_map g l.
Proof.
  intro H. induction l as [|x l IH]; simpl; [reflexivity|].
  now rewrite H, IH.
Qed.

Lemma flat_map_length_le {A B} (f : A -> list B) (n : nat) (l : list A) :
  (forall x, List.length (f x) <= n) ->
  List.length (flat_map f l) <= n * List.length l.
Proof.
  intro H. induction l as [|x l IH]; simpl; [lia|].
  rewrite length_app. specialize (H x). nia.
Qed.

Lemma forallb_flat_map {A B} (P : B -> bool) (f : A -> list B) (l : list A) :
  (forall x, forallb P (f x) = true) -> forallb P (flat_map f l) = true.
Proof.
  intro H. induction l as [|x l IH]; simpl; [reflexivity|].
  now rewrite forallb_app, H, IH.
Qed.

Lemma forallb_filter {A} (P keep : A -> bool) (l : list A) :
  forallb P l = true -> forallb P (filter keep l) = true.
Proof.
  induction l as [|x l IH]; simpl; [reflexivity|].
  intro H. apply andb_true_iff in H. destruct H as (Hx & Hl).
  destruct (keep x); simpl; [rewrite Hx|]; now apply IH.
Qed.

(** The advice of a profile, label by label. *)
Lemma personal_advice_flat_map t h c w user_profile :
  personal_advice t h c w user_profile
  = flat_map (health_condition_rule t h c []) (conditions_of user_profile)
    ++ flat_map (sensitivity_rule t h w []) (sensitivities_of user_profile)
    ++ flat_map (allergy_rule c []) (allergies_of user_profile).
Proof.
  unfold personal_advice, conditions_of, sensitivities_of, allergies_of.
  destruct user_profile as [p|]; [|reflexivity].
  destruct (profile_truthy (Some p)) eqn:E.
  - unfold profile_rules.
    rewrite (fold_left_flat_map _ (@allergy_rule_app c)).
    rewrite (fold_left_flat_map _ (@sensitivity_rule_app t h w)).
    rewrite (fold_left_flat_map _ (@health_condition_rule_app t h c)).
    cbn [app]. now rewrite <- app_assoc.
  - unfold profile_truthy in E.
    destruct (user_id p), (health_conditions p), (weather_sensitivities p),
      (allergies p); try discriminate E.
    reflexivity.
Qed.

(** Two profiles with the same advice on a reading get the same
    advisory, and the same [KeyError] on an ill-formed one. *)
Lemma same_personal_advice w up1 up2 :
  (forall t h d,
      provides w t h d ->
      personal_advice t h (Py.lower d) w up1 = personal_advice t h (Py.lower d) w up2) ->
  get_comprehensive_recommendations w up1 = get_comprehensive_recommendations w up2.
Proof.
  intro H.
  destruct (temp w) as [t|] eqn:Ht;
    [|unfold get_comprehensive_recommendations; rewrite Ht; reflexivity].
  destruct (humidity w) as [h|] eqn:Hh;
    [|unfold get_comprehensive_recommendations; rewrite Ht, Hh; reflexivity].
  destruct (description w) as [d|] eqn:Hd;
    [|unfold get_comprehensive_recommendations; rewrite Ht, Hh, Hd; reflexivity].
  assert (Hp : provides w t h d) by (repeat split; assumption).
  rewrite (get_comprehensive_recommendations_eq up1 Hp).
  rewrite (get_comprehensive_recommendations_eq up2 Hp).
  now rewrite (H t h d Hp).
Qed.

(** ** Missing keys *)

(** X1: both engine functions raise [KeyError] exactly when one of
    [temp], [humidity], [description] is missing, and the error names
    the first missing key in that order, whatever the profile and the
    other fields are. *)
Theorem key_error_names_first_missing_key w user_profile key :
  (get_comprehensive_recommendations w user_profile = inl (Py.KeyError key)
   <-> get_health_recommendations w user_profile = inl (Py.KeyError key))
  /\ (get_comprehensive_recommendations w user_profile = inl (Py.KeyError key)
      <-> (temp w = None /\ key = "temp")
          \/ (temp w <> None /\ humidity w = None /\ key = "humidity")
          \/ (temp w <> None /\ humidity w <> None
              /\ description w = None /\ key = "description")).
Proof.
  unfold get_comprehensive_recommendations, get_health_recommendations.
  destruct (temp w) as [t|] eqn:Ht.
  2:{ cbv [Py.getitem Py.bind].
      split; [split; intro E; injection E as <-; reflexivity|]. split.
      - intro E. injection E as <-. left. split; reflexivity.
      - intros [(_ & ->)|[(N & _)|(N & _)]]; [reflexivity|now elim N..]. }
  destruct (humidity w) as [h|] eqn:Hh.
  2:{ cbv [Py.getitem Py.bind].
      split; [split; intro E; injection E as <-; reflexivity|]. split.
      - intro E. injection E as <-. right. left. repeat split. discriminate.
      - intros [(N & _)|[(_ & _ & ->)|(_ & N & _)]];
          [discriminate N|reflexivity|now elim N]. }
  destruct (description w) as [d|] eqn:Hd.
  2:{ cbv [Py.getitem Py.bind].
      split; [split; intro E; injection E as <-; reflexivity|]. split.
      - intro E. injection E as <-. right. right. repeat split; discriminate.
      - intros [(N & _)|[(_ & N & _)|(_ & _ & _ & ->)]];
          [discriminate N|discriminate N|reflexivity]. }
  assert (Hp : provides w t h d) by (repeat split; assumption).
  pose proof (get_comprehensive_recommendations_eq user_profile Hp) as E1.
  pose proof (get_health_recommendations_eq user_profile Hp) as E2.
  unfold get_comprehensive_recommendations in E1.
  unfold get_health_recommendations in E2.
  rewrite Ht, Hh, Hd in E1, E2. rewrite E1, E2.
  split; [split; discriminate|].
  split; [discriminate|].
  intros [(N & _)|[(_ & N & _)|(_ & _ & N & _)]]; discriminate N.
Qed.

(** ** Labels of the profile *)

Lemma conditions_of_prune p :
  conditions_of (Some (prune p))
  = filter (known known_conditions) (conditions_of (Some p)).
Proof. unfold conditions_of, prune; simpl. now destruct (health_conditions p). Qed.

Lemma sensitivities_of_prune p :
  sensitivities_of (Some (prune p))
  = filter (known known_sensitivities) (sensitivities_of (Some p)).
Proof. unfold sensitivities_of, prune; simpl. now destruct (weather_sensitivities p). Qed.

Lemma allergies_of_prune p :
  allergies_of (Some (prune p))
  = filter (known known_allergies) (allergies_of (Some p)).
Proof. unfold allergies_of, prune; simpl. now destruct (allergies p). Qed.

Section UnknownLabels.

Variables (t h : Py.number) (c : string) (w : reading).

Lemma health_condition_rule_unknown x :
  known known_conditions x = false -> health_condition_rule t h c [] x = [].
Proof.
  unfold known, known_conditions, existsb. rewrite !orb_false_iff.
  intros (E1 & E2 & E3 & _).
  unfold health_condition_rule. cbv zeta. now rewrite E1, E2, E3.
Qed.

Lemma sensitivity_rule_unknown x :
  known known_sensitivities x = false -> sensitivity_rule t h w [] x = [].
Proof.
  unfold known, known_sensitivities, existsb. rewrite !orb_false_iff.
  intros (E1 & E2 & E3 & E4 & _).
  unfold sensitivity_rule. cbv zeta. now rewrite E1, E2, E3, E4.
Qed.

Lemma allergy_rule_unknown x :
  known known_allergies x = false -> allergy_rule c [] x = [].
Proof.
  unfold known, known_allergies, existsb. rewrite !orb_false_iff.
  intros (E1 & E2 & _).
  unfold allergy_rule. cbv zeta. now rewrite E1, E2.
Qed.

End UnknownLabels.

(** X2: labels that are none of the recognised ones, compared in lower
    case, change nothing: the profile and the profile without them get
    the same advisory (and the same error on an ill-formed reading). *)
Theorem unknown_labels_are_skipped w (p : profile) :
  get_comprehensive_recommendations w (Some p)
  = get_comprehensive_recommendations w (Some (prune p)).
Proof.
  apply same_personal_advice. intros t h d _.
  rewrite !personal_advice_flat_map.
  rewrite conditions_of_prune, sensitivities_of_prune, allergies_of_prune.
  rewrite (flat_map_filter _ _ _ (@health_condition_rule_unknown t h (Py.lower d))).
  rewrite (flat_map_filter _ _ _ (@sensitivity_rule_unknown t h w)).
  rewrite (flat_map_filter _ _ _ (@allergy_rule_unknown (Py.lower d))).
  reflexivity.
Qed.

(** X3: a profile whose three label lists are empty or absent, the
    empty dictionary included, gets the advisory of a call without
    profile. *)
Theorem profile_without_labels w (p : profile) :
  Py.get (health_conditions p) [] = [] ->
  Py.get (weather_sensitivities p) [] = [] ->
  Py.get (allergies p) [] = [] ->
  get_comprehensive_recommendations w (Some p)
  = get_comprehensive_recommendations w None.
Proof.
  intros H1 H2 H3. apply same_personal_advice. intros t h d _.
  rewrite !personal_advice_flat_map.
  unfold conditions_of, sensitivities_of, allergies_of.
  rewrite H1, H2, H3. reflexivity.
Qed.

Lemma profile_without_labels_witness :
  get_comprehensive_recommendations Fixture.damp (Some Fixture.blank_profile)
  = get_comprehensive_recommendations Fixture.damp None
  /\ get_comprehensive_recommendations Fixture.damp (Some (Profile None None None None))
     = get_comprehensive_recommendations Fixture.damp None.
Proof.
  split.
  - apply (@profile_without_labels Fixture.damp Fixture.blank_profile); reflexivity.
  - apply (@profile_without_labels Fixture.damp (Profile None None None None));
      reflexivity.
Defined.

(** ** Letter case *)

Lemma lower_ascii_idempotent (a : ascii) :
  Py.lower_ascii (Py.lower_ascii a) = Py.lower_ascii a.
Proof. destruct a as [[] [] [] [] [] [] [] []]; reflexivity. Qed.

Lemma lower_idempotent (s : string) : Py.lower (Py.lower s) = Py.lower s.
Proof.
  induction s as [|a s IH]; simpl; [reflexivity|].
  now rewrite lower_ascii_idempotent, IH.
Qed.

Lemma flat_map_map {A B C} (f : A -> B) (g : B -> list C) (l : list A) :
  flat_map g (map f l) = flat_map (fun x => g (f x)) l.
Proof.
  induction l as [|x l IH]; simpl; [reflexivity|]. now rewrite IH.
Qed.

Lemma conditions_of_lower p :
  conditions_of (Some (lower_profile p)) = map Py.lower (conditions_of (Some p)).
Proof. unfold conditions_of, lower_profile; simpl. now destruct (health_conditions p). Qed.

Lemma sensitivities_of_lower p :
  sensitivities_of (Some (lower_profile p))
  = map Py.lower (sensitivities_of (Some p)).
Proof.
  unfold sensitivities_of, lower_profile; simpl.
  now destruct (weather_sensitivities p).
Qed.

Lemma allergies_of_lower p :
  allergies_of (Some (lower_profile p)) = map Py.lower (allergies_of (Some p)).
Proof. unfold allergies_of, lower_profile; simpl. now destruct (allergies p). Qed.

(** X4: the letter case of the description and of the profile's labels
    does not matter: the call gives what it gives on the same reading
    and profile written in lower case. *)
Theorem letter_case_is_ignored w (p : profile) :
  get_comprehensive_recommendations w (Some p)
  = get_comprehensive_recommendations (lower_description w) (Some (lower_profile p)).
Proof.
  destruct (temp w) as [t|] eqn:Ht;
    [|unfold get_comprehensive_recommendations; cbn [temp lower_description];
      rewrite Ht; reflexivity].
  destruct (humidity w) as [h|] eqn:Hh;
    [|unfold get_comprehensive_recommendations; cbn [temp humidity lower_description];
      rewrite Ht, Hh; reflexivity].
  destruct (description w) as [d|] eqn:Hd;
    [|unfold get_comprehensive_recommendations;
      cbn [temp humidity description lower_description];
      rewrite Ht, Hh, Hd; reflexivity].
  assert (Hp : provides w t h d) by (repeat split; assumption).
  assert (Hp' : provides (lower_description w) t h (Py.lower d)).
  { unfold provides; cbn [temp humidity description lower_description].
    rewrite Hd. repeat split; assumption. }
  rewrite (get_comprehensive_recommendations_eq (Some p) Hp).
  rewrite (get_comprehensive_recommendations_eq (Some (lower_profile p)) Hp').
  rewrite !personal_advice_flat_map.
  rewrite conditions_of_lower, sensitivities_of_lower, allergies_of_lower.
  rewrite !flat_map_map, lower_idempotent.
  assert (E1 : forall x,
             health_condition_rule t h (Py.lower d) [] (Py.lower x)
             = health_condition_rule t h (Py.lower d) [] x).
  { intro x. unfold health_condition_rule. now rewrite lower_idempotent. }
  assert (E2 : forall x,
             sensitivity_rule t h (lower_description w) [] (Py.lower x)
             = sensitivity_rule t h w [] x).
  { intro x. unfold sensitivity_rule. now rewrite lower_idempotent. }
  assert (E3 : forall x,
             allergy_rule (Py.lower d) [] (Py.lower x) = allergy_rule (Py.lower d) [] x).
  { intro x. unfold allergy_rule. now rewrite lower_idempotent. }
  rewrite (flat_map_pointwise _ _ _ E1), (flat_map_pointwise _ _ _ E2),
    (flat_map_pointwise _ _ _ E3).
  reflexivity.
Qed.

(** ** Shape of the advisory *)

Section RuleSizes.

Variables (t h : Py.number) (c : string) (w : reading).

Ltac each_branch :=
  repeat match goal with
         | |- context [if ?b then _ else _] => destruct b
         end.

Lemma health_condition_rule_length x :
  List.length (health_condition_rule t h c [] x) <= 2.
Proof. unfold health_condition_rule. each_branch; simpl; lia. Qed.

Lemma sensitivity_rule_length x :
  List.length (sensitivity_rule t h w [] x) <= 1.
Proof. unfold sensitivity_rule. each_branch; simpl; lia. Qed.

Lemma allergy_rule_length x :
  List.length (allergy_rule c [] x) <= 1.
Proof. unfold allergy_rule. each_branch; simpl; lia. Qed.

Lemma health_condition_rule_newline_free x :
  forallb newline_free (health_condition_rule t h c [] x) = true.
Proof. unfold health_condition_rule. each_branch; reflexivity. Qed.

Lemma sensitivity_rule_newline_free x :
  forallb newline_free (sensitivity_rule t h w [] x) = true.
Proof. unfold sensitivity_rule. each_branch; reflexivity. Qed.

Lemma allergy_rule_newline_free x :
  forallb newline_free (allergy_rule c [] x) = true.
Proof. unfold allergy_rule. each_branch; reflexivity. Qed.

Lemma personal_advice_newline_free user_profile :
  forallb newline_free (personal_advice t h c w user_profile) = true.
Proof.
  rewrite personal_advice_flat_map, !forallb_app.
  rewrite (forallb_flat_map _ _ _ health_condition_rule_newline_free).
  rewrite (forallb_flat_map _ _ _ sensitivity_rule_newline_free).
  rewrite (forallb_flat_map _ _ _ allergy_rule_newline_free).
  reflexivity.
Qed.

End RuleSizes.

(** X5: [health_advice] follows the profile: first what each entry of
    [health_conditions] adds, in the order of that list, then the same
    for [weather_sensitivities], then for [allergies], and last the mask
    advisory of the override.  What one label adds does not depend on
    the other labels. *)
Theorem health_advice_follows_profile w user_profile t h d :
  provides w t h d ->
  exists r,
    get_comprehensive_recommendations w user_profile = inr r
    /\ health_advice r
       = flat_map (health_condition_rule t h (Py.lower d) [])
           (conditions_of user_profile)
         ++ flat_map (sensitivity_rule t h w []) (sensitivities_of user_profile)
         ++ flat_map (allergy_rule (Py.lower d) []) (allergies_of user_profile)
         ++ (if Py.gt (air_quality_index w) (Py.int 100) then [Text.mask] else []).
Proof.
  intro Hp.
  eexists. split; [apply (get_comprehensive_recommendations_eq _ Hp)|].
  cbn [health_advice]. rewrite personal_advice_flat_map.
  rewrite <- !app_assoc. reflexivity.
Qed.

Lemma health_advice_follows_profile_witness :
  provides Fixture.damp (Py.int 26) (Py.int 85) "Light RAIN"
  /\ exists r,
       get_comprehensive_recommendations Fixture.damp (Some Fixture.shouting_profile)
       = inr r
       /\ health_advice r
          = [Text.asthma_humidity; Text.asthma_damp; Text.sensitive_humidity; Text.mask].
Proof.
  assert (Hp : provides Fixture.damp (Py.int 26) (Py.int 85) "Light RAIN")
    by (repeat split; reflexivity).
  split; [exact Hp|].
  destruct (health_advice_follows_profile (Some Fixture.shouting_profile) Hp)
    as (r & E & A).
  exists r. split; [exact E|]. rewrite A. reflexivity.
Defined.

(** X6: the advisory is bounded by the profile: [health_advice] has at
    most two entries per health condition, one per sensitivity, one per
    allergy, and one more for the override. *)
Theorem health_advice_is_bounded w user_profile t h d :
  provides w t h d ->
  exists r,
    get_comprehensive_recommendations w user_profile = inr r
    /\ List.length (health_advice r)
       <= 2 * List.length (conditions_of user_profile)
          + List.length (sensitivities_of user_profile)
          + List.length (allergies_of user_profile)
          + 1.
Proof.
  intro Hp.
  eexists. split; [apply (get_comprehensive_recommendations_eq _ Hp)|].
  cbn [health_advice]. rewrite personal_advice_flat_map, !length_app.
  pose proof (@flat_map_length_le _ _ (health_condition_rule t h (Py.lower d) []) 2
                (conditions_of user_profile)
                (health_condition_rule_length t h (Py.lower d))) as B1.
  pose proof (@flat_map_length_le _ _ (sensitivity_rule t h w []) 1
                (sensitivities_of user_profile)
                (sensitivity_rule_length t h w)) as B2.
  pose proof (@flat_map_length_le _ _ (allergy_rule (Py.lower d) []) 1
                (allergies_of user_profile)
                (allergy_rule_length (Py.lower d))) as B3.
  assert (B4 : List.length (if override w then [Text.mask] else []) <= 1)
    by (destruct (override w); simpl; lia).
  lia.
Qed.

Lemma health_advice_is_bounded_witness :
  provides Fixture.damp (Py.int 26) (Py.int 85) "Light RAIN"
  /\ exists r,
       get_comprehensive_recommendations Fixture.damp (Some Sample.full_profile)
       = inr r
       /\ List.length (health_advice r) <= 11.
Proof.
  assert (Hp : provides Fixture.damp (Py.int 26) (Py.int 85) "Light RAIN")
    by (repeat split; reflexivity).
  split; [exact Hp|].
  destruct (health_advice_is_bounded (Some Sample.full_profile) Hp) as (r & E & B).
  exists r. split; [exact E|exact B].
Defined.

(** ** Text of the advisory *)

Lemma join_cons sep (a : string) (l : list string) :
  l <> [] -> Py.join sep (a :: l) = (a ++ sep ++ Py.join sep l)%string.
Proof. destruct l; [congruence|reflexivity]. Qed.

Lemma string_app_assoc (a b c : string) :
  ((a ++ b) ++ c = a ++ b ++ c)%string.
Proof. induction a as [|x a IH]; simpl; [reflexivity|]. now rewrite IH. Qed.

Lemma string_app_nil_r (a : string) : (a ++ EmptyString)%string = a.
Proof. induction a as [|x a IH]; simpl; [reflexivity|]. now rewrite IH. Qed.

Lemma join_snoc sep (l : list string) (x : string) :
  l <> [] -> Py.join sep (l ++ [x]) = (Py.join sep l ++ sep ++ x)%string.
Proof.
  induction l as [|a l IH]; [congruence|]. intros _.
  destruct l as [|b l].
  - reflexivity.
  - change ((a :: b :: l) ++ [x]) with (a :: ((b :: l) ++ [x])).
    rewrite join_cons by (simpl; discriminate).
    rewrite IH by discriminate.
    rewrite (join_cons sep a (l:=b :: l)) by discriminate.
    now rewrite !string_app_assoc.
Qed.

(** Joining a text that is itself a join of lines. *)
Lemma join_flat sep (l m : list string) :
  m <> [] -> Py.join sep (l ++ [Py.join sep m]) = Py.join sep (l ++ m).
Proof.
  intro Hm. induction l as [|a l IH]; simpl app.
  - reflexivity.
  - rewrite !join_cons; [now rewrite IH| |].
    + destruct l; [exact Hm|discriminate].
    + destruct l; discriminate.
Qed.

Lemma lines_newline_free (s : string) : newline_free s = true -> lines s = [s].
Proof.
  induction s as [|a s IH]; simpl; [reflexivity|].
  intro H. apply andb_true_iff in H. destruct H as (Ha & Hs).
  apply negb_true_iff in Ha. rewrite Ha, (IH Hs). reflexivity.
Qed.

Lemma lines_app (s rest : string) :
  newline_free s = true ->
  lines (s ++ Text.newline ++ rest) = s :: lines rest.
Proof.
  induction s as [|a s IH]; simpl.
  - reflexivity.
  - intro H. apply andb_true_iff in H. destruct H as (Ha & Hs).
    apply negb_true_iff in Ha. rewrite Ha.
    unfold Text.newline in IH. simpl in IH. rewrite (IH Hs). reflexivity.
Qed.

(** [split] undoes [join] on lines without newline. *)
Lemma lines_join (l : list string) :
  l <> [] -> forallb newline_free l = true -> lines (Py.join Text.newline l) = l.
Proof.
  induction l as [|a l IH]; [congruence|]. intros _ H.
  simpl in H. apply andb_true_iff in H. destruct H as (Ha & Hl).
  destruct l as [|b l].
  - simpl. now apply lines_newline_free.
  - rewrite join_cons by discriminate.
    rewrite lines_app by exact Ha.
    rewrite IH; [reflexivity|discriminate|exact Hl].
Qed.

Lemma format_recommendations_layout (r : advisory) :
  format_recommendations r = Py.join Text.newline (layout r).
Proof.
  unfold format_recommendations, layout.
  rewrite !render_separated, render_last.
  rewrite <- !app_assoc. reflexivity.
Qed.

Lemma join_two_or_more (l : list string) :
  2 <= List.length l -> Py.join Text.newline l <> EmptyString.
Proof.
  destruct l as [|a [|b l]]; simpl List.length; try lia.
  intros _. rewrite join_cons by discriminate.
  destruct a; discriminate.
Qed.

Lemma render_length heading separator (entries : list string) :
  entries <> [] -> List.length entries < List.length (render heading separator entries).
Proof.
  destruct entries as [|e entries]; [congruence|]. intros _.
  cbn [render]. simpl List.length. rewrite length_app. simpl List.length. lia.
Qed.

Lemma render_newline_free heading separator (entries : list string) :
  newline_free heading = true ->
  forallb newline_free entries = true ->
  forallb newline_free (render heading separator entries) = true.
Proof.
  intros Hh He. destruct entries as [|e entries]; [reflexivity|].
  cbn [render]. change (forallb newline_free (heading :: (e :: entries) ++ (if separator then [EmptyString] else [])))
    with (newline_free heading
          && forallb newline_free ((e :: entries) ++ (if separator then [EmptyString] else []))).
  rewrite Hh, forallb_app, He. destruct separator; reflexivity.
Qed.

Lemma band_activities_length (b : band) (filtered : bool) :
  2 <= List.length (if filtered then keep_indoor (band_activities b)
                    else band_activities b) <= 5.
Proof. destruct b, filtered; vm_compute; lia. Qed.

Lemma band_food_length (b : band) : 3 <= List.length (band_food b) <= 5.
Proof. destruct b; vm_compute; lia. Qed.

Lemma general_length (b : band) (c : string) :
  List.length (band_general b ++ condition_general c) <= 7.
Proof.
  unfold condition_general.
  destruct b, (Py.contains "rain" c), (Py.contains "clear" c); vm_compute; lia.
Qed.

(** X7: no advisory is empty: on every well-formed reading and for
    every profile, [activities] keeps between two and five entries
    (even after the override filter), [food_suggestions] has between
    three and five, [general_advice] at most seven, and the formatted
    text is never the empty string. *)
Theorem advisory_sizes w user_profile t h d :
  provides w t h d ->
  exists r,
    get_comprehensive_recommendations w user_profile = inr r
    /\ 2 <= List.length (activities r) <= 5
    /\ 3 <= List.length (food_suggestions r) <= 5
    /\ List.length (general_advice r) <= 7
    /\ format_recommendations r <> EmptyString.
Proof.
  intro Hp.
  eexists. split; [apply (get_comprehensive_recommendations_eq _ Hp)|].
  cbn [activities food_suggestions general_advice].
  pose proof (band_food_length (band_of t)) as F.
  split; [apply band_activities_length|].
  split; [exact F|].
  split; [apply general_length|].
  rewrite format_recommendations_layout. apply join_two_or_more.
  unfold layout. cbn [activities food_suggestions general_advice health_advice].
  rewrite !length_app.
  assert (N : band_food (band_of t) <> []) by (destruct (band_of t); discriminate).
  pose proof (render_length Text.food_heading true N). lia.
Qed.

Lemma advisory_sizes_witness :
  provides Sample.warm_smog (Py.int 30) (Py.int 50) "haze"
  /\ exists r,
       get_comprehensive_recommendations Sample.warm_smog None = inr r
       /\ 2 <= List.length (activities r).
Proof.
  assert (Hp : provides Sample.warm_smog (Py.int 30) (Py.int 50) "haze")
    by (repeat split; reflexivity).
  split; [exact Hp|].
  destruct (advisory_sizes None Hp) as (r & E & A & _).
  exists r. split; [exact E|apply A].
Defined.

(** X8: in the formatted text of an advisory of the engine every
    heading, every entry and every separator is a line of its own:
    splitting the text at the newlines gives back the headings and the
    entries of the populated categories, in order. *)
Theorem formatted_lines w user_profile t h d :
  provides w t h d ->
  exists r,
    get_comprehensive_recommendations w user_profile = inr r
    /\ lines (format_recommendations r)
       = render Text.health_heading true (health_advice r)
         ++ render Text.activity_heading true (activities r)
         ++ render Text.food_heading true (food_suggestions r)
         ++ render Text.general_heading false (general_advice r).
Proof.
  intro Hp.
  eexists. split; [apply (get_comprehensive_recommendations_eq _ Hp)|].
  rewrite format_recommendations_layout.
  apply lines_join.
  - unfold layout. cbn [activities food_suggestions general_advice health_advice].
    intro E. apply (f_equal (@List.length string)) in E.
    rewrite !length_app in E. simpl in E.
    assert (N : band_food (band_of t) <> []) by (destruct (band_of t); discriminate).
    pose proof (render_length Text.food_heading true N). lia.
  - unfold layout. cbn [activities food_suggestions general_advice health_advice].
    rewrite !forallb_app.
    rewrite !render_newline_free; try reflexivity.
    + rewrite forallb_app. apply andb_true_iff. split.
      * destruct (band_of t); reflexivity.
      * unfold condition_general.
        destruct (Py.contains "rain" (Py.lower d)); [reflexivity|].
        destruct (Py.contains "clear" (Py.lower d)); reflexivity.
    + destruct (band_of t); reflexivity.
    + destruct (override w); [apply forallb_filter|]; destruct (band_of t); reflexivity.
    + rewrite forallb_app, personal_advice_newline_free.
      destruct (override w); reflexivity.
Qed.

Lemma formatted_lines_witness :
  provides Sample.mild_rain (Py.int 20) (Py.int 50) "light rain"
  /\ exists r,
       get_comprehensive_recommendations Sample.mild_rain None = inr r
       /\ List.length (lines (format_recommendations r)) = 15.
Proof.
  assert (Hp : provides Sample.mild_rain (Py.int 20) (Py.int 50) "light rain")
    by (repeat split; reflexivity).
  split; [exact Hp|].
  destruct (formatted_lines None Hp) as (r & E & L).
  exists r. split; [exact E|]. rewrite L.
  rewrite (get_comprehensive_recommendations_eq None Hp) in E.
  injection E as <-. reflexivity.
Defined.

Lemma render_separated_snoc heading (entries : list string) :
  entries <> [] ->
  render heading true entries = (heading :: entries) ++ [EmptyString].
Proof. destruct entries; [congruence|reflexivity]. Qed.

(** X9: the separator after the health, activity and food blocks is
    written whether or not a block follows.  So when [general_advice]
    is empty and another category is populated the text ends with a
    newline, and when [general_advice] is populated the text ends with
    its last entry. *)
Theorem format_ending (r : advisory) :
  (general_advice r = [] ->
   health_advice r <> [] \/ activities r <> [] \/ food_suggestions r <> [] ->
   exists body, format_recommendations r = (body ++ Text.newline)%string)
  /\ (forall entries last,
        general_advice r = entries ++ [last] ->
        exists body, format_recommendations r = (body ++ Text.newline ++ last)%string).
Proof.
  split.
  - intros Hg Hne.
    assert (S : exists l, l <> [] /\ layout r = l ++ [EmptyString]).
    { unfold layout. rewrite Hg. cbn [render]. rewrite app_nil_r.
      destruct (food_suggestions r) as [|f fs] eqn:Ef.
      - cbn [render]. rewrite app_nil_r.
        destruct (activities r) as [|a acts] eqn:Ea.
        + cbn [render]. rewrite app_nil_r.
          destruct (health_advice r) as [|x xs] eqn:Eh.
          * destruct Hne as [N|[N|N]]; congruence.
          * exists (Text.health_heading :: x :: xs). split; [discriminate|].
            now rewrite render_separated_snoc by discriminate.
        + exists (render Text.health_heading true (health_advice r)
                  ++ Text.activity_heading :: a :: acts).
          split; [destruct (render _ _ _); discriminate|].
          rewrite (@render_separated_snoc Text.activity_heading (a :: acts))
            by discriminate.
          now rewrite <- app_assoc.
      - exists (render Text.health_heading true (health_advice r)
                ++ render Text.activity_heading true (activities r)
                ++ Text.food_heading :: f :: fs).
        split.
        + destruct (render Text.health_heading _ _); [|discriminate].
          destruct (render Text.activity_heading _ _); discriminate.
        + rewrite (@render_separated_snoc Text.food_heading (f :: fs)) by discriminate.
          now rewrite <- !app_assoc. }
    destruct S as (l & Hl & E).
    exists (Py.join Text.newline l).
    rewrite format_recommendations_layout, E, join_snoc by exact Hl.
    now rewrite string_app_nil_r.
  - intros entries last Hg.
    set (front := render Text.health_heading true (health_advice r)
                  ++ render Text.activity_heading true (activities r)
                  ++ render Text.food_heading true (food_suggestions r)
                  ++ Text.general_heading :: entries).
    assert (E : layout r = front ++ [last]).
    { unfold layout, front. rewrite Hg.
      assert (R : render Text.general_heading false (entries ++ [last])
                  = (Text.general_heading :: entries) ++ [last]).
      { destruct entries; cbn [render app]; rewrite ?app_nil_r; reflexivity. }
      rewrite R. now rewrite <- !app_assoc. }
    assert (N : front <> []).
    { unfold front.
      destruct (render Text.health_heading _ _); [|discriminate].
      destruct (render Text.activity_heading _ _); [|discriminate].
      destruct (render Text.food_heading _ _); discriminate. }
    exists (Py.join Text.newline front).
    now rewrite format_recommendations_layout, E, join_snoc by exact N.
Qed.

Lemma format_ending_witness :
  exists body,
    format_recommendations (Advisory [Text.heart_cold] [] Text.mild_food [])
    = (body ++ Text.newline)%string.
Proof.
  apply (format_ending (Advisory [Text.heart_cold] [] Text.mild_food []));
    [reflexivity|left; discriminate].
Defined.

(** ** Readings without an air-quality index *)

Section NoOverride.

Variables (t h : Py.number) (c : string) (w : reading).
Hypothesis quiet : override w = false.

Ltac each_branch :=
  repeat match goal with
         | |- context [if ?b then _ else _] => destruct b
         end.

Lemma health_condition_rule_no_air e x :
  e = Text.mask \/ e = Text.sensitive_air ->
  existsb (String.eqb e) (health_condition_rule t h c [] x) = false.
Proof.
  intros [-> | ->]; unfold health_condition_rule; each_branch; reflexivity.
Qed.

Lemma sensitivity_rule_no_air e x :
  e = Text.mask \/ e = Text.sensitive_air ->
  existsb (String.eqb e) (sensitivity_rule t h w [] x) = false.
Proof.
  pose proof quiet as Q. unfold override, air_quality_index in Q.
  intros [-> | ->]; unfold sensitivity_rule; rewrite Q, andb_false_r;
    each_branch; reflexivity.
Qed.

Lemma allergy_rule_no_air e x :
  e = Text.mask \/ e = Text.sensitive_air ->
  existsb (String.eqb e) (allergy_rule c [] x) = false.
Proof.
  intros [-> | ->]; unfold allergy_rule; each_branch; reflexivity.
Qed.

Lemma existsb_flat_map_false {A} (e : string) (f : A -> list string) (l : list A) :
  (forall x, existsb (String.eqb e) (f x) = false) ->
  existsb (String.eqb e) (flat_map f l) = false.
Proof.
  intro H. induction l as [|x l IH]; simpl; [reflexivity|].
  now rewrite existsb_app, H, IH.
Qed.

Lemma personal_advice_no_air e user_profile :
  e = Text.mask \/ e = Text.sensitive_air ->
  ~ In e (personal_advice t h c w user_profile).
Proof.
  intro He. apply not_In_existsb_eqb.
  rewrite personal_advice_flat_map, !existsb_app.
  rewrite (@existsb_flat_map_false _ e _ _ (fun x => @health_condition_rule_no_air e x He)).
  rewrite (@existsb_flat_map_false _ e _ _ (fun x => @sensitivity_rule_no_air e x He)).
  rewrite (@existsb_flat_map_false _ e _ _ (fun x => @allergy_rule_no_air e x He)).
  reflexivity.
Qed.

End NoOverride.

Lemma weather_of_json_some (data : owm_data) (w : reading) :
  weather_of_json data = Some w <->
  exists main first rest wind t h d s,
    data_main data = Some main
    /\ data_weather data = Some (first :: rest)
    /\ data_wind data = Some wind
    /\ main_temp main = Some t
    /\ main_humidity main = Some h
    /\ weather_description first = Some d
    /\ speed wind = Some s
    /\ w = Reading (Some t) (Some h) (Some d) None (Some s).
Proof.
  unfold weather_of_json. split.
  - destruct (data_main data) as [main|] eqn:E1; [|discriminate].
    destruct (main_temp main) as [t|] eqn:E2; [|discriminate].
    destruct (data_weather data) as [[|first rest]|] eqn:E3; try discriminate.
    cbn [nth_error].
    destruct (weather_description first) as [d|] eqn:E4; [|discriminate].
    destruct (main_humidity main) as [h|] eqn:E5; [|discriminate].
    destruct (data_wind data) as [wind|] eqn:E6; [|discriminate].
    destruct (speed wind) as [s|] eqn:E7; [|discriminate].
    intro E. injection E as <-.
    exists main, first, rest, wind, t, h, d, s.
    repeat split; first [assumption | reflexivity].
  - intros (main & first & rest & wind & t & h & d & s
            & E1 & E3 & E6 & E2 & E5 & E4 & E7 & ->).
    rewrite E1, E2, E3. cbn [nth_error]. rewrite E4, E5, E6, E7. reflexivity.
Qed.

Lemma layout_not_empty (r : advisory) : food_suggestions r <> [] -> layout r <> [].
Proof.
  intros N E. apply (f_equal (@List.length string)) in E.
  unfold layout in E. rewrite !length_app in E. simpl in E.
  pose proof (render_length Text.food_heading true N). lia.
Qed.

Section CollaboratorFacts.

Variable provider : string -> response.
Variable store : string -> query.
Variable show : Py.number -> string.

Lemma get_weather_data_weather city w :
  get_weather_data provider city = WeatherDict w <->
  exists data, provider city = Json data /\ weather_of_json data = Some w.
Proof.
  unfold get_weather_data. split.
  - destruct (provider city) as [| | |data]; try discriminate.
    destruct (weather_of_json data) as [w'|] eqn:W; [|discriminate].
    intro E. injection E as <-. now exists data.
  - intros (data & -> & ->). reflexivity.
Qed.

Lemma get_weather_data_shape city w :
  get_weather_data provider city = WeatherDict w ->
  exists t h d s, w = Reading (Some t) (Some h) (Some d) None (Some s).
Proof.
  intro E. apply get_weather_data_weather in E. destruct E as (data & _ & E).
  apply weather_of_json_some in E.
  destruct E as (_ & _ & _ & _ & t & h & d & s & _ & _ & _ & _ & _ & _ & _ & E).
  now exists t, h, d, s.
Qed.

(** X10: [get_weather_data] never raises.  It returns the weather
    dictionary exactly when the provider answers with a JSON document
    that has [main.temp], [main.humidity], [wind.speed] and a non-empty
    [weather] list whose first element has a [description]; that
    dictionary then has the four keys [temp], [humidity],
    [description], [wind_speed] with those values and no [air_quality]
    key.  In every other case it returns the error dictionary, with the
    one fixed message. *)
Theorem get_weather_data_answers city :
  (forall w,
      get_weather_data provider city = WeatherDict w <->
      exists data main first rest wind t h d s,
        provider city = Json data
        /\ data_main data = Some main
        /\ data_weather data = Some (first :: rest)
        /\ data_wind data = Some wind
        /\ main_temp main = Some t
        /\ main_humidity main = Some h
        /\ weather_description first = Some d
        /\ speed wind = Some s
        /\ w = Reading (Some t) (Some h) (Some d) None (Some s))
  /\ ((forall w, get_weather_data provider city <> WeatherDict w) <->
      get_weather_data provider city = ErrorDict "Failed to fetch weather data.").
Proof.
  split.
  - intro w. rewrite get_weather_data_weather. split.
    + intros (data & Hd & E). apply weather_of_json_some in E.
      destruct E as (main & first & rest & wind & t & h & d & s & E).
      now exists data, main, first, rest, wind, t, h, d, s.
    + intros (data & main & first & rest & wind & t & h & d & s & Hd & E).
      exists data. split; [exact Hd|]. apply weather_of_json_some.
      now exists main, first, rest, wind, t, h, d, s.
  - split.
    + intro N. unfold get_weather_data in *.
      destruct (provider city) as [| | |data]; try reflexivity.
      destruct (weather_of_json data) as [w|]; [|reflexivity].
      now elim (N w).
    + intros E w E'. congruence.
Qed.

(** X11: the override is out of reach of the provider's readings: a
    weather dictionary built by [get_weather_data] has no [air_quality]
    key, so for every profile the advisory has the band's activities
    unfiltered, no mask advisory, and no air-quality advice even for a
    profile sensitive to air quality. *)
Theorem provider_reading_never_overrides city w user_profile :
  get_weather_data provider city = WeatherDict w ->
  exists t r,
    temp w = Some t
    /\ get_comprehensive_recommendations w user_profile = inr r
    /\ activities r = band_activities (band_of t)
    /\ ~ In Text.mask (health_advice r)
    /\ ~ In Text.sensitive_air (health_advice r).
Proof.
  intro E. destruct (get_weather_data_shape _ E) as (t & h & d & s & ->).
  assert (Hp : provides (Reading (Some t) (Some h) (Some d) None (Some s)) t h d)
    by (repeat split; reflexivity).
  exists t. eexists. split; [reflexivity|].
  split; [apply (get_comprehensive_recommendations_eq _ Hp)|].
  assert (Q : override (Reading (Some t) (Some h) (Some d) None (Some s)) = false)
    by reflexivity.
  cbn [activities health_advice]. rewrite Q, app_nil_r.
  split; [reflexivity|].
  split; apply personal_advice_no_air; auto.
Qed.

(** X12: on answers of the expected shape (a provider document whose
    four values, where present, are numbers and a string, and a profile
    row whose label columns are lists of strings)
    [get_weather_with_health_context] returns a text in every case and
    raises no [KeyError]: the dictionary [get_weather_data] builds
    always carries the keys that the function and the engine read, and
    a failed fetch or a failed lookup is answered, not raised.  (A
    document with a null or ill-typed value is outside these types.) *)
Theorem context_never_raises city user_id :
  exists text,
    get_weather_with_health_context provider store show city user_id = inr text.
Proof.
  unfold get_weather_with_health_context.
  destruct (get_weather_data provider city) as [e|w] eqn:E.
  - eexists. reflexivity.
  - destruct (get_weather_data_shape _ E) as (t & h & d & s & ->).
    assert (Hp : provides (Reading (Some t) (Some h) (Some d) None (Some s)) t h d)
      by (repeat split; reflexivity).
    cbn [temp humidity description wind_speed Py.getitem Py.bind].
    rewrite (get_comprehensive_recommendations_eq _ Hp).
    eexists. reflexivity.
Qed.

(** X13: when the weather cannot be fetched (the request fails, the
    status is an error, the body is not JSON, or the document lacks one
    of the four values) the answer is the text of the error dictionary,
    and neither the user id nor the profile store has any influence. *)
Theorem context_on_fetch_failure city user_id :
  (provider city = RequestFailed \/ provider city = StatusError
   \/ provider city = NotJson
   \/ exists data, provider city = Json data /\ weather_of_json data = None) ->
  get_weather_with_health_context provider store show city user_id
  = inr "{'error': 'Failed to fetch weather data.'}".
Proof.
  intro H. unfold get_weather_with_health_context, get_weather_data.
  destruct H as [-> | [-> | [-> | (data & -> & ->)]]]; reflexivity.
Qed.

(** X14: a lookup that gives no profile is no obstacle: with no user
    id, with an empty one, or when the store raises, answers nothing or
    answers without data, the text is the one of a call without user
    id. *)
Theorem context_without_profile city user_id :
  (user_id = None \/ user_id = Some EmptyString
   \/ exists id,
        user_id = Some id
        /\ (store id = QueryRaised \/ store id = QueryFalsy
            \/ store id = QueryResult None)) ->
  get_weather_with_health_context provider store show city user_id
  = get_weather_with_health_context provider store show city None.
Proof.
  intros [-> | [-> | (id & -> & H)]]; try reflexivity.
  unfold get_weather_with_health_context, get_user_profile.
  destruct (get_weather_data provider city); [reflexivity|].
  destruct id as [|a id]; [reflexivity|]. cbn [user_id_truthy].
  destruct H as [-> | [-> | ->]]; reflexivity.
Qed.

(** X15: the answer is one list of lines: the five lines on the
    weather, an empty line, and then the headings and entries of the
    advisory the engine gives for the fetched reading and the profile
    found for the user id, laid out as by [format_recommendations]. *)
Theorem context_lines city user_id w :
  get_weather_data provider city = WeatherDict w ->
  exists t h d s r,
    w = Reading (Some t) (Some h) (Some d) None (Some s)
    /\ get_comprehensive_recommendations w
         match user_id with
         | Some (String a id) => get_user_profile store (String a id)
         | _ => None
         end = inr r
    /\ get_weather_with_health_context provider store show city user_id
       = inr (Py.join Text.newline
                ([ ("🌡️ Current weather in " ++ city ++ ":")%string;
                   ("Temperature: " ++ show t ++ "°C")%string;
                   ("Conditions: " ++ d)%string;
                   ("Humidity: " ++ show h ++ "%")%string;
                   ("Wind Speed: " ++ show s ++ " m/s")%string;
                   EmptyString ]
                 ++ render Text.health_heading true (health_advice r)
                 ++ render Text.activity_heading true (activities r)
                 ++ render Text.food_heading true (food_suggestions r)
                 ++ render Text.general_heading false (general_advice r))).
Proof.
  intro E. destruct (get_weather_data_shape _ E) as (t & h & d & s & ->).
  assert (Hp : provides (Reading (Some t) (Some h) (Some d) None (Some s)) t h d)
    by (repeat split; reflexivity).
  exists t, h, d, s. eexists.
  split; [reflexivity|].
  split; [apply (get_comprehensive_recommendations_eq _ Hp)|].
  unfold get_weather_with_health_context. rewrite E.
  cbn [temp humidity description wind_speed Py.getitem Py.bind].
  assert (U : match user_id with
              | Some id => if user_id_truthy user_id
                           then get_user_profile store id else None
              | None => None
              end
              = match user_id with
                | Some (String a id) => get_user_profile store (String a id)
                | _ => None
                end).
  { destruct user_id as [[|a id]|]; reflexivity. }
  rewrite U.
  rewrite (get_comprehensive_recommendations_eq _ Hp).
  unfold Py.bind, Py.ret. f_equal.
  rewrite format_recommendations_layout.
  rewrite join_flat; [reflexivity|].
  apply layout_not_empty.
  cbn [food_suggestions]. destruct (band_of t); discriminate.
Qed.

End CollaboratorFacts.

Lemma provider_reading_never_overrides_witness :
  exists w t r,
    get_weather_data Fixture.provider "London" = WeatherDict w
    /\ temp w = Some t
    /\ get_comprehensive_recommendations w (Some Sample.full_profile) = inr r
    /\ ~ In Text.mask (health_advice r).
Proof.
  assert (E : get_weather_data Fixture.provider "London"
              = WeatherDict (Reading (Some (Py.Fin (185 # 10))) (Some (Py.int 82))
                               (Some "light rain") None (Some (Py.Fin (36 # 10)))))
    by reflexivity.
  destruct (@provider_reading_never_overrides Fixture.provider "London" _
              (Some Sample.full_profile) E) as (t & r & Ht & Hr & _ & Hm & _).
  exists (Reading (Some (Py.Fin (185 # 10))) (Some (Py.int 82))
            (Some "light rain") None (Some (Py.Fin (36 # 10)))), t, r.
  split; [exact E|]. split; [exact Ht|]. split; [exact Hr|exact Hm].
Defined.

Lemma context_on_fetch_failure_witness :
  get_weather_with_health_context Fixture.provider Fixture.store Fixture.show
    "Nowhere" (Some "u4")
  = inr "{'error': 'Failed to fetch weather data.'}"
  /\ get_weather_with_health_context Fixture.provider Fixture.store Fixture.show
       "Atlantis" None
     = inr "{'error': 'Failed to fetch weather data.'}".
Proof.
  split.
  - apply (@context_on_fetch_failure Fixture.provider Fixture.store Fixture.show
             "Nowhere" (Some "u4")).
    right. right. right. exists Fixture.no_conditions. split; reflexivity.
  - apply (@context_on_fetch_failure Fixture.provider Fixture.store Fixture.show
             "Atlantis" None).
    right. left. reflexivity.
Defined.

Lemma context_without_profile_witness :
  get_weather_with_health_context Fixture.provider Fixture.store Fixture.show
    "London" (Some "gone")
  = get_weather_with_health_context Fixture.provider Fixture.store Fixture.show
      "London" None.
Proof.
  apply (@context_without_profile Fixture.provider Fixture.store Fixture.show
           "London" (Some "gone")).
  right. right. exists "gone". split; [reflexivity|]. right. left. reflexivity.
Defined.

Lemma context_lines_witness :
  exists text,
    get_weather_with_health_context Fixture.provider Fixture.store Fixture.show
      "London" (Some "u4") = inr text
    /\ List.length (lines text) = 26.
Proof.
  assert (E : get_weather_data Fixture.provider "London"
              = WeatherDict (Reading (Some (Py.Fin (185 # 10))) (Some (Py.int 82))
                               (Some "light rain") None (Some (Py.Fin (36 # 10)))))
    by reflexivity.
  destruct (@context_lines Fixture.provider Fixture.store Fixture.show
              "London" (Some "u4") _ E) as (t & h & d & s & r & W & R & T).
  injection W as <- <- <- <-.
  vm_compute in R. injection R as <-.
  eexists. split; [exact T|]. reflexivity.
Defined.

(** X16: the two engine functions fit together: the [health_advice] of
    [get_comprehensive_recommendations] is the list
    [get_health_recommendations] returns for the same arguments,
    followed by the mask advisory when the air-quality index is above
    100. *)
Theorem health_advice_is_health_recommendations w user_profile t h d :
  provides w t h d ->
  exists recs r,
    get_health_recommendations w user_profile = inr recs
    /\ get_comprehensive_recommendations w user_profile = inr r
    /\ health_advice r
       = recs ++ (if Py.gt (air_quality_index w) (Py.int 100) then [Text.mask] else []).
Proof.
  intro Hp. do 2 eexists.
  split; [apply (get_health_recommendations_eq _ Hp)|].
  split; [apply (get_comprehensive_recommendations_eq _ Hp)|].
  reflexivity.
Qed.

Lemma health_advice_is_health_recommendations_witness :
  provides Fixture.damp (Py.int 26) (Py.int 85) "Light RAIN"
  /\ exists recs r,
       get_health_recommendations Fixture.damp (Some Sample.asthma_profile) = inr recs
       /\ get_comprehensive_recommendations Fixture.damp (Some Sample.asthma_profile)
          = inr r
       /\ health_advice r = recs ++ [Text.mask].
Proof.
  assert (Hp : provides Fixture.damp (Py.int 26) (Py.int 85) "Light RAIN")
    by (repeat split; reflexivity).
  split; [exact Hp|].
  destruct (health_advice_is_health_recommendations (Some Sample.asthma_profile) Hp)
    as (recs & r & E1 & E2 & A).
  exists recs, r. split; [exact E1|]. split; [exact E2|exact A].
Defined.

Example london_without_profile :
  get_weather_with_health_context Fixture.provider Fixture.store Fixture.show
    "London" None
  = inr "🌡️ Current weather in London:
Temperature: n°C
Conditions: light rain
Humidity: n%
Wind Speed: n m/s

🏃 Activity Recommendations:
✅ Most outdoor activities are comfortable
✅ Walking, jogging, cycling
✅ Outdoor sports
✅ Sightseeing

🍽️ Food & Hydration Advice:
🥤 Regular water intake
🍽️ Regular balanced meals
🥪 Pack snacks for outdoor activities

💡 General Advice:
☔ Carry an umbrella
🧥 Wear waterproof clothing
👟 Wear appropriate footwear".
Proof. reflexivity. Qed.

(** ** The chat endpoint *)

(** X17: once the body of the request is read, the endpoint answers
    400 exactly when the message is falsy as a Python value (absent,
    null, false, zero, or an empty string, list or object), and then
    does not call the agent; in every other case it answers 200, also
    when the agent raises: the response text is then "I encountered an
    error: " followed by the text of the exception; it never answers
    500.  The user id reaches neither the reply nor the agent: from the
    same state of the agent, two requests with the same message get the
    same reply and leave the agent in the same state. *)
Theorem chat_reply (agent_state : Type)
  (agent_run : agent_state -> json -> (string + string) * agent_state)
  (message uid1 uid2 : json) (agent : agent_state) :
  (snd (fst (handle_chat_with_agent agent_run (RequestFields message uid1) agent)) = 400
   <-> json_truthy message = false)
  /\ (json_truthy message = false ->
      handle_chat_with_agent agent_run (RequestFields message uid1) agent
      = ((ErrorJson "Message is required", 400), agent))
  /\ (json_truthy message = true ->
      forall outcome agent',
        agent_run agent message = (outcome, agent') ->
        handle_chat_with_agent agent_run (RequestFields message uid1) agent
        = ((ResponseJson
              match outcome with
              | inr answer => answer
              | inl e => ("I encountered an error: " ++ e)%string
              end, 200), agent'))
  /\ snd (fst (handle_chat_with_agent agent_run (RequestFields message uid1) agent))
     <> 500
  /\ handle_chat_with_agent agent_run (RequestFields message uid1) agent
     = handle_chat_with_agent agent_run (RequestFields message uid2) agent.
Proof.
  unfold handle_chat_with_agent, WeatherAgent_run.
  destruct (json_truthy message); cbn [negb].
  - destruct (agent_run agent message) as [[e|answer] agent'] eqn:E;
      cbn [fst snd];
      (split; [split; [lia|discriminate]|]);
      (split; [discriminate|]);
      (split; [intros _ outcome agent'' Q; now injection Q as <- <-|]);
      (split; [lia|reflexivity]).
  - cbn [fst snd].
    split; [split; reflexivity|].
    split; [reflexivity|].
    split; [discriminate|].
    split; [lia|reflexivity].
Qed.

Lemma chat_reply_witness :
  handle_chat_with_agent Fixture.broken_agent
    (RequestFields (JString "hi") (JString "u4")) 0
  = ((ResponseJson "I encountered an error: quota exceeded", 200), 1)
  /\ handle_chat_with_agent Fixture.broken_agent
       (RequestFields (JNumber (Py.int 0)) JNull) 7
     = ((ErrorJson "Message is required", 400), 7).
Proof.
  split.
  - destruct (chat_reply Fixture.broken_agent (JString "hi") (JString "u4") JNull 0)
      as (_ & _ & H & _).
    apply (H eq_refl (inl "quota exceeded") 1). reflexivity.
  - destruct (chat_reply Fixture.broken_agent (JNumber (Py.int 0)) JNull JNull 7)
      as (_ & H & _).
    apply H. reflexivity.
Defined.

(** * The engine keeps no state *)

(** ** Cells of the heap *)

Lemma lookup_here (mem : Stateful.heap) c tl :
  Stateful.lookup (List.length mem) (mem ++ c :: tl) = c.
Proof. unfold Stateful.lookup. now rewrite nth_middle. Qed.

Lemma lookup_beyond (mem tl : Stateful.heap) k :
  Stateful.lookup (List.length mem + k) (mem ++ tl) = Stateful.lookup k tl.
Proof.
  unfold Stateful.lookup. rewrite app_nth2 by lia.
  f_equal. lia.
Qed.

Lemma update_beyond (mem tl : Stateful.heap) k v :
  Stateful.update (List.length mem + k) v (mem ++ tl) = mem ++ Stateful.update k v tl.
Proof.
  induction mem as [|c mem IH]; simpl.
  - reflexivity.
  - now rewrite IH.
Qed.

Lemma update_here (mem : Stateful.heap) c tl v :
  Stateful.update (List.length mem) v (mem ++ c :: tl) = mem ++ v :: tl.
Proof.
  rewrite <- (Nat.add_0_r (List.length mem)). now rewrite update_beyond.
Qed.

Lemma length_update r v (mem : Stateful.heap) :
  List.length (Stateful.update r v mem) = List.length mem.
Proof.
  revert r. induction mem as [|c mem IH]; intros [|r]; simpl; auto.
Qed.

Lemma lookup_update r v (mem : Stateful.heap) :
  r < List.length mem -> Stateful.lookup r (Stateful.update r v mem) = v.
Proof.
  revert r. induction mem as [|c mem IH]; intros [|r]; simpl; try lia.
  - reflexivity.
  - intro H. apply IH. lia.
Qed.

Lemma update_update r v v' (mem : Stateful.heap) :
  Stateful.update r v' (Stateful.update r v mem) = Stateful.update r v' mem.
Proof.
  revert r. induction mem as [|c mem IH]; intros [|r]; simpl; auto.
  now rewrite IH.
Qed.

Lemma update_lookup r (mem : Stateful.heap) :
  Stateful.update r (Stateful.lookup r mem) mem = mem.
Proof.
  revert r. induction mem as [|c mem IH]; intros [|r]; simpl; auto.
  unfold Stateful.lookup in IH. now rewrite IH.
Qed.

(** ** The loops on the heap *)

Section Loops.

Variable r : Stateful.ref.

Ltac each_branch :=
  repeat match goal with
         | |- context [if ?b then _ else _] => destruct b
         end.

Ltac run_appends :=
  cbv [Stateful.bind Stateful.when Stateful.append Stateful.extend Stateful.ret];
  rewrite ?length_update, ?lookup_update, ?update_update, ?update_lookup
    by (rewrite ?length_update; assumption);
  try reflexivity.

(** A loop whose body rewrites the object at [r] by [f] rewrites it by
    the fold of [f]. *)
Lemma for_each_fold {A} (f : list string -> A -> list string)
  (body : A -> Stateful.M unit) :
  (forall x mem,
      r < List.length mem ->
      body x mem = (inr tt, Stateful.update r (f (Stateful.lookup r mem) x) mem)) ->
  forall l mem,
    r < List.length mem ->
    Stateful.for_each body l mem
    = (inr tt, Stateful.update r (fold_left f l (Stateful.lookup r mem)) mem).
Proof.
  intros Hb l. induction l as [|x l IH]; intros mem Hr; simpl.
  - unfold Stateful.ret. now rewrite update_lookup.
  - unfold Stateful.bind. rewrite (Hb x mem Hr).
    rewrite IH by (now rewrite length_update).
    now rewrite lookup_update, update_update.
Qed.

Variables (t h : Py.number) (c : string) (w : reading).

Lemma health_condition_rule_on_heap x mem :
  r < List.length mem ->
  Stateful.health_condition_rule t h c r x mem
  = (inr tt,
     Stateful.update r (health_condition_rule t h c (Stateful.lookup r mem) x) mem).
Proof.
  intro Hr. unfold Stateful.health_condition_rule, health_condition_rule.
  each_branch; run_appends.
Qed.

Lemma sensitivity_rule_on_heap x mem :
  r < List.length mem ->
  Stateful.sensitivity_rule t h w r x mem
  = (inr tt, Stateful.update r (sensitivity_rule t h w (Stateful.lookup r mem) x) mem).
Proof.
  intro Hr. unfold Stateful.sensitivity_rule, sensitivity_rule.
  each_branch; run_appends.
Qed.

Lemma allergy_rule_on_heap x mem :
  r < List.length mem ->
  Stateful.allergy_rule c r x mem
  = (inr tt, Stateful.update r (allergy_rule c (Stateful.lookup r mem) x) mem).
Proof.
  intro Hr. unfold Stateful.allergy_rule, allergy_rule.
  each_branch; run_appends.
Qed.

Lemma profile_rules_on_heap p mem :
  r < List.length mem ->
  Stateful.profile_rules t h c w r p mem
  = (inr tt, Stateful.update r (profile_rules t h c w (Stateful.lookup r mem) p) mem).
Proof.
  intro Hr. unfold Stateful.profile_rules, profile_rules, Stateful.bind.
  rewrite (@for_each_fold _ (health_condition_rule t h c)
             (Stateful.health_condition_rule t h c r)
             health_condition_rule_on_heap _ mem Hr).
  rewrite (@for_each_fold _ (sensitivity_rule t h w)
             (Stateful.sensitivity_rule t h w r) sensitivity_rule_on_heap)
    by (now rewrite length_update).
  rewrite (@for_each_fold _ (allergy_rule c)
             (Stateful.allergy_rule c r) allergy_rule_on_heap)
    by (now rewrite !length_update).
  rewrite !lookup_update by (rewrite ?length_update; assumption).
  now rewrite !update_update.
Qed.

End Loops.

(** [get_health_recommendations] on the heap: one new list, holding
    what the function returns, and nothing else touched. *)
Lemma get_health_recommendations_on_heap w user_profile t h d mem :
  provides w t h d ->
  Stateful.get_health_recommendations w user_profile mem
  = (inr (List.length mem),
     mem ++ [personal_advice t h (Py.lower d) w user_profile]).
Proof.
  intros (Ht & Hh & Hd).
  unfold Stateful.get_health_recommendations.
  rewrite Ht, Hh, Hd.
  cbv [Stateful.bind Stateful.new_list Stateful.lift Py.getitem Stateful.ret].
  unfold personal_advice.
  destruct user_profile as [p|]; [|reflexivity].
  destruct (profile_truthy (Some p)); [|reflexivity].
  cbv [Stateful.when].
  rewrite profile_rules_on_heap by (rewrite length_app; simpl; lia).
  now rewrite lookup_here, update_here.
Qed.

(** ** The stages on the heap

    The four lists of the dictionary sit side by side behind the
    objects [mem] that existed before the call. *)

Ltac run_cells :=
  cbv [Stateful.bind Stateful.extend Stateful.append Stateful.ret Stateful.read
       Stateful.health_ref Stateful.activities_ref Stateful.food_ref
       Stateful.general_ref];
  repeat (rewrite ?lookup_beyond, ?update_beyond, ?lookup_here, ?update_here;
          cbn [Stateful.lookup Stateful.update nth]).

Lemma temperature_rules_on_heap t (mem : Stateful.heap) hc ac fc gc tl :
  let n := List.length mem in
  let r := temperature_rules t (Advisory hc ac fc gc) in
  Stateful.temperature_rules t (Stateful.Dict n (n + 1) (n + 2) (n + 3))
    (mem ++ hc :: ac :: fc :: gc :: tl)
  = (inr tt,
     mem ++ health_advice r :: activities r :: food_suggestions r
         :: general_advice r :: tl).
Proof.
  intros n r. subst n r.
  unfold Stateful.temperature_rules, temperature_rules.
  destruct (Py.gt t (Py.int 35)); [run_cells; reflexivity|].
  destruct (Py.le (Py.int 25) t && Py.le t (Py.int 35)); run_cells; reflexivity.
Qed.

Lemma condition_rules_on_heap c (mem : Stateful.heap) hc ac fc gc tl :
  let n := List.length mem in
  let r := condition_rules c (Advisory hc ac fc gc) in
  Stateful.condition_rules c (Stateful.Dict n (n + 1) (n + 2) (n + 3))
    (mem ++ hc :: ac :: fc :: gc :: tl)
  = (inr tt,
     mem ++ health_advice r :: activities r :: food_suggestions r
         :: general_advice r :: tl).
Proof.
  intros n r. subst n r.
  unfold Stateful.condition_rules, condition_rules.
  destruct (Py.contains "rain" c); [run_cells; reflexivity|].
  destruct (Py.contains "clear" c); run_cells; reflexivity.
Qed.

Lemma health_rules_on_heap w user_profile t h d (mem : Stateful.heap) hc ac fc gc :
  provides w t h d ->
  let n := List.length mem in
  let advice := personal_advice t h (Py.lower d) w user_profile in
  Stateful.health_rules w user_profile (Stateful.Dict n (n + 1) (n + 2) (n + 3))
    (mem ++ [hc; ac; fc; gc])
  = (inr tt,
     mem ++ (hc ++ advice) :: ac :: fc :: gc
         :: (if profile_truthy user_profile then [advice] else [])).
Proof.
  intros Hp n advice. subst n advice.
  unfold Stateful.health_rules.
  destruct (profile_truthy user_profile) eqn:E.
  - unfold Stateful.bind at 1.
    rewrite (get_health_recommendations_on_heap user_profile _ Hp).
    unfold Stateful.bind at 1. unfold Stateful.read. rewrite lookup_here.
    rewrite <- app_assoc. cbn [app]. run_cells. reflexivity.
  - unfold Stateful.ret, personal_advice.
    destruct user_profile; rewrite ?E, app_nil_r; reflexivity.
Qed.

Lemma air_quality_rules_on_heap w (mem : Stateful.heap) hc ac fc gc tl :
  let n := List.length mem in
  let r := air_quality_rules w (Advisory hc ac fc gc) in
  exists recommendations cells,
    Stateful.air_quality_rules w (Stateful.Dict n (n + 1) (n + 2) (n + 3))
      (mem ++ hc :: ac :: fc :: gc :: tl)
    = (inr recommendations, mem ++ cells)
    /\ Stateful.contents recommendations (mem ++ cells) = r
    /\ List.length mem <= Stateful.health_ref recommendations
    /\ List.length mem <= Stateful.activities_ref recommendations
    /\ List.length mem <= Stateful.food_ref recommendations
    /\ List.length mem <= Stateful.general_ref recommendations.
Proof.
  intros n r. subst n r.
  unfold Stateful.air_quality_rules, air_quality_rules.
  destruct (Py.gt (Py.get (air_quality w) (Py.int 0)) (Py.int 100)).
  - exists (Stateful.Dict (List.length mem)
              (List.length mem + (4 + List.length tl))
              (List.length mem + 2) (List.length mem + 3)).
    exists ((hc ++ [Text.mask]) :: ac :: fc :: gc :: tl ++ [keep_indoor ac]).
    split; [|split; [|simpl; lia]].
    + run_cells. unfold Stateful.new_list.
      rewrite length_app, <- app_assoc. reflexivity.
    + unfold Stateful.contents.
      cbn [Stateful.health_ref Stateful.activities_ref Stateful.food_ref
           Stateful.general_ref].
      rewrite lookup_here, !lookup_beyond.
      unfold Stateful.lookup. cbn [nth Nat.add].
      now rewrite nth_middle.
  - exists (Stateful.Dict (List.length mem) (List.length mem + 1)
              (List.length mem + 2) (List.length mem + 3)).
    exists (hc :: ac :: fc :: gc :: tl).
    split; [reflexivity|]. split; [|simpl; lia].
    unfold Stateful.contents.
    cbn [Stateful.health_ref Stateful.activities_ref Stateful.food_ref
         Stateful.general_ref].
    rewrite lookup_here, !lookup_beyond. reflexivity.
Qed.

Lemma advisory_eta (r : advisory) :
  Advisory (health_advice r) (activities r) (food_suggestions r) (general_advice r) = r.
Proof. now destruct r. Qed.

(** The pure function, stage by stage. *)
Lemma get_comprehensive_recommendations_stages w user_profile t h d :
  provides w t h d ->
  get_comprehensive_recommendations w user_profile
  = inr (air_quality_rules w
           (condition_rules (Py.lower d)
              (extend_health (personal_advice t h (Py.lower d) w user_profile)
                 (temperature_rules t empty_advisory)))).
Proof.
  intros Hp. pose proof Hp as (Ht & Hh & Hd).
  unfold get_comprehensive_recommendations.
  rewrite Ht, Hh, Hd. unfold Py.getitem, Py.bind at 1 2 3.
  rewrite (health_rules_eq user_profile _ Hp).
  reflexivity.
Qed.

(** A call on any heap: it fails as the pure function fails, before
    allocating anything, or it returns a dictionary of lists that lie
    behind the objects that existed, holds what the pure function
    returns, and leaves those objects as they were. *)
Lemma get_comprehensive_recommendations_on_heap w user_profile (mem : Stateful.heap) :
  match get_comprehensive_recommendations w user_profile with
  | inl e =>
      Stateful.get_comprehensive_recommendations w user_profile mem = (inl e, mem)
  | inr r =>
      exists recommendations cells,
        Stateful.get_comprehensive_recommendations w user_profile mem
        = (inr recommendations, mem ++ cells)
        /\ Stateful.contents recommendations (mem ++ cells) = r
        /\ List.length mem <= Stateful.health_ref recommendations
        /\ List.length mem <= Stateful.activities_ref recommendations
        /\ List.length mem <= Stateful.food_ref recommendations
        /\ List.length mem <= Stateful.general_ref recommendations
  end.
Proof.
  destruct (temp w) as [t|] eqn:Ht;
    [|unfold get_comprehensive_recommendations,
        Stateful.get_comprehensive_recommendations; rewrite Ht; reflexivity].
  destruct (humidity w) as [h|] eqn:Hh;
    [|unfold get_comprehensive_recommendations,
        Stateful.get_comprehensive_recommendations; rewrite Ht, Hh; reflexivity].
  destruct (description w) as [d|] eqn:Hd;
    [|unfold get_comprehensive_recommendations,
        Stateful.get_comprehensive_recommendations; rewrite Ht, Hh, Hd; reflexivity].
  assert (Hp : provides w t h d) by (repeat split; assumption).
  rewrite (get_comprehensive_recommendations_stages user_profile Hp).
  unfold Stateful.get_comprehensive_recommendations.
  rewrite Ht, Hh, Hd.
  cbv [Stateful.lift Py.getitem Stateful.new_list].
  unfold Stateful.bind at 1 2 3 4 5 6 7.
  rewrite !length_app, <- !app_assoc. cbn [List.length app].
  rewrite <- !Nat.add_assoc. cbn [Nat.add].
  unfold Stateful.bind at 1.
  pose proof (temperature_rules_on_heap t mem [] [] [] [] []) as T.
  cbv zeta in T. rewrite T. clear T.
  set (r1 := temperature_rules t (Advisory [] [] [] [])).
  unfold Stateful.bind at 1.
  pose proof (@health_rules_on_heap w user_profile t h d mem (health_advice r1)
                (activities r1) (food_suggestions r1) (general_advice r1) Hp) as H.
  cbv zeta in H. rewrite H. clear H.
  set (advice := personal_advice t h (Py.lower d) w user_profile).
  unfold Stateful.bind at 1.
  pose proof (condition_rules_on_heap (Py.lower d) mem (health_advice r1 ++ advice)
                (activities r1) (food_suggestions r1) (general_advice r1)
                (if profile_truthy user_profile then [advice] else [])) as C.
  cbv zeta in C. rewrite C. clear C.
  set (r3 := condition_rules (Py.lower d)
               (Advisory (health_advice r1 ++ advice) (activities r1)
                  (food_suggestions r1) (general_advice r1))).
  pose proof (air_quality_rules_on_heap w mem (health_advice r3) (activities r3)
                (food_suggestions r3) (general_advice r3)
                (if profile_truthy user_profile then [advice] else [])) as Q.
  cbv zeta in Q. destruct Q as (recommendations & cells & Q & K & L).
  unfold Stateful.bind. rewrite Q.
  exists recommendations, cells. split; [reflexivity|]. split; [|exact L].
  rewrite K, advisory_eta. reflexivity.
Qed.

(** C8: the engine keeps no state between calls.  Run as Python runs
    it, on the heap of the process, [get_comprehensive_recommendations]
    gives the same outcome (the same four category sequences, entry for
    entry and in the same order, or the same [KeyError]) whatever the
    heap it starts from: two invocations with identical arguments agree,
    also when the second starts from the heap the first has left and the
    caller has changed in between.  A call reads no object that existed
    before it, changes none, and returns lists that are all new. *)
Theorem two_calls_one_advisory w user_profile (mem1 mem2 : Stateful.heap) :
  Stateful.observe (Stateful.get_comprehensive_recommendations w user_profile mem1)
  = Stateful.observe (Stateful.get_comprehensive_recommendations w user_profile mem2)
  /\ Stateful.observe (Stateful.get_comprehensive_recommendations w user_profile mem1)
     = get_comprehensive_recommendations w user_profile
  /\ firstn (List.length mem1)
       (snd (Stateful.get_comprehensive_recommendations w user_profile mem1))
     = mem1
  /\ (forall recommendations,
        fst (Stateful.get_comprehensive_recommendations w user_profile mem1)
        = inr recommendations ->
        List.length mem1 <= Stateful.health_ref recommendations
        /\ List.length mem1 <= Stateful.activities_ref recommendations
        /\ List.length mem1 <= Stateful.food_ref recommendations
        /\ List.length mem1 <= Stateful.general_ref recommendations).
Proof.
  assert (O : forall mem,
             Stateful.observe
               (Stateful.get_comprehensive_recommendations w user_profile mem)
             = get_comprehensive_recommendations w user_profile).
  { intro mem.
    pose proof (get_comprehensive_recommendations_on_heap w user_profile mem) as H.
    destruct (get_comprehensive_recommendations w user_profile) as [e|r].
    - now rewrite H.
    - destruct H as (d & cells & -> & K & _).
      unfold Stateful.observe. cbn [fst snd map_result]. now rewrite K. }
  split; [now rewrite !O|]. split; [apply O|].
  pose proof (get_comprehensive_recommendations_on_heap w user_profile mem1) as H.
  destruct (get_comprehensive_recommendations w user_profile) as [e|r].
  - rewrite H. cbn [fst snd]. split; [apply firstn_all|]. discriminate.
  - destruct H as (d & cells & -> & _ & F).
    cbn [fst snd]. split.
    + rewrite firstn_app, firstn_all, Nat.sub_diag. cbn [firstn]. apply app_nil_r.
    + intros recommendations E. injection E as <-. exact F.
Qed.

Lemma two_calls_one_advisory_witness :
  Stateful.observe
    (Stateful.get_comprehensive_recommendations Sample.warm_smog
       (Some Sample.full_profile) [])
  = Stateful.observe
      (Stateful.get_comprehensive_recommendations Sample.warm_smog
         (Some Sample.full_profile) Stateful.used_heap).
Proof.
  apply (two_calls_one_advisory Sample.warm_smog (Some Sample.full_profile)
           [] Stateful.used_heap).
Defined.

Example second_call_after_the_first :
  let (first, mem) :=
    Stateful.get_comprehensive_recommendations Sample.warm_smog None [] in
  match first with
  | inl _ => False
  | inr d =>
      let spoiled := Stateful.update (Stateful.activities_ref d) ["spoiled"] mem in
      Stateful.observe
        (Stateful.get_comprehensive_recommendations Sample.warm_smog None spoiled)
      = inr (Advisory [Text.mask]
               ["✅ Swimming"; "✅ Early morning/late evening walks"]
               Text.warm_food [])
  end.
Proof. vm_compute. reflexivity. Qed.


(** C6, as stated, fails: when food is the last section rendered, its
    entries are still followed by the separator: the lines of the text
    end with an empty line and the text with a newline. *)
Lemma separator_after_last_section :
  general_advice (Advisory [] [] Text.mild_food []) = []
  /\ lines (format_recommendations (Advisory [] [] Text.mild_food []))
     = Text.food_heading :: Text.mild_food ++ [EmptyString]
  /\ format_recommendations (Advisory [] [] Text.mild_food [])
     = (Py.join Text.newline (Text.food_heading :: Text.mild_food) ++ Text.newline)%string.
Proof. repeat split; reflexivity. Qed.
